(** * Weather station generator: a shallow embedding of [generator.py]

    The development follows [src/generator/generator.py].

    - Python [float] values are modelled by the real numbers [R]: the
      arithmetic of the generator is read over the reals, IEEE rounding of
      the individual operations is not modelled.  [round(x, 2)] is modelled
      exactly (nearest multiple of 1/100, ties to even).
    - Python [int] values are modelled by [Z].
    - The [random] module is modelled by passing the drawn values in: one
      record field per call site.  [datetime.now().hour] is passed in as
      [hour].
    - [self] is threaded through [generate] by a small state-and-error
      monad; a raised exception leaves the mutations done so far in place,
      like in Python.
    - [psycopg2.connect], [time.sleep] are modelled by an oracle for the
      outcome of each call and an explicit log of the effects. *)

From Stdlib Require Import Reals Lra Lia ZArith List String Bool.
Import ListNotations.

Local Open Scope R_scope.

(** ** Python built-ins used by the generator *)

Module Py.

(** Exceptions that can appear in the modelled code. *)
Inductive Exn : Type :=
| IndexError                      (* list index out of range *)
| OperationalError                (* psycopg2.OperationalError *)
| OtherError (name : string)      (* any exception that is not an OperationalError *)
| Exception (msg : string).       (* raise Exception(msg) *)

(** Comparisons [a < b], [a > b], [a >= b] on numbers. *)
Definition lt (a b : R) : bool := if Rlt_dec a b then true else false.
Definition gt (a b : R) : bool := if Rgt_dec a b then true else false.
Definition ge (a b : R) : bool := if Rge_dec a b then true else false.

(** [max(a, b)] and [min(a, b)] on numbers. *)
Definition max (a b : R) : R := Rmax a b.
Definition min (a b : R) : R := Rmin a b.

(** Nearest integer, ties to the even neighbour. *)
Definition round_half_even (y : R) : Z :=
  let f := Int_part y in
  let d := y - IZR f in
  if Rlt_dec d (1 / 2) then f
  else if Rlt_dec (1 / 2) d then (f + 1)%Z
  else if Z.even f then f else (f + 1)%Z.

(** [round(x, 2)]. *)
Definition round2 (x : R) : R := IZR (round_half_even (x * 100)) / 100.

(** [l[i]]: negative indices count from the end, anything outside
    [-len(l) .. len(l) - 1] raises [IndexError]. *)
Definition index {A : Type} (l : list A) (i : Z) : Exn + A :=
  let n := Z.of_nat (List.length l) in
  let j := if (i <? 0)%Z then (i + n)%Z else i in
  if ((0 <=? j)%Z && (j <? n)%Z)%bool
  then match nth_error l (Z.to_nat j) with
       | Some x => inr x
       | None => inl IndexError
       end
  else inl IndexError.

(** [sum(xs)]: left-to-right accumulation from 0. *)
Definition sum (xs : list R) : R := fold_left Rplus xs 0.

(** [random.uniform(a, b)] is [a + (b - a) * random.random()];
    [u] is the value of [random.random()], in [0, 1). *)
Definition uniform (a b u : R) : R := a + (b - a) * u.

(** [random.choice([a, b])]: [pick] tells which position was chosen. *)
Definition choice2 {A : Type} (a b : A) (pick : bool) : A :=
  if pick then b else a.

(** The range of [random.random()]. *)
Definition unit_draw (u : R) : Prop := 0 <= u < 1.

End Py.

(** ** Module-level constants *)

Local Open Scope string_scope.

Definition WIND_DIRECTIONS : list string :=
  ["N"; "NE"; "E"; "SE"; "S"; "SW"; "W"; "NW"].

(** The eight weather conditions; the names are those of the
    specification, the values are the literals of the source. *)
Definition Clear : string := "Ясно".
Definition PartlyCloudy : string := "Малооблачно".
Definition Cloudy : string := "Облачно".
Definition Overcast : string := "Пасмурно".
Definition LightRain : string := "Небольшой дождь".
Definition Rain : string := "Дождь".
Definition Thunderstorm : string := "Гроза".
Definition Fog : string := "Туман".

Definition WEATHER_CONDITIONS : list (string * R) :=
  [ (Clear, 0.25);
    (PartlyCloudy, 0.20);
    (Cloudy, 0.20);
    (Overcast, 0.15);
    (LightRain, 0.10);
    (Rain, 0.05);
    (Thunderstorm, 0.03);
    (Fog, 0.02) ].

(** The two literal lists of [generate] (lines 119-125 and 128-132). *)
Definition RAIN_CHOICES : list (string * R) :=
  [ (Overcast, 0.3);
    (LightRain, 0.3);
    (Rain, 0.25);
    (Thunderstorm, 0.1);
    (Fog, 0.05) ].

Definition FAIR_CHOICES : list (string * R) :=
  [ (Clear, 0.5);
    (PartlyCloudy, 0.35);
    (Cloudy, 0.15) ].

Local Close Scope string_scope.

(** ** Data model *)

(** The attributes of a [WeatherDataGenerator] instance. *)
Record StationState : Type := mkState {
  base_temperature : R;
  base_humidity : R;
  base_pressure : R;
  base_wind_speed : R;
  current_direction_idx : Z;
  time_counter : Z
}.

(** The dictionary returned by [generate]. *)
Record WeatherReading : Type := mkReading {
  temperature : R;
  humidity : R;
  pressure : R;
  wind_speed : R;
  wind_direction : string;
  weather_condition : string
}.

(** Values drawn by [__init__]: the four [random.random()] values behind
    the [random.uniform] calls and the result of [random.randint]. *)
Record InitDraws : Type := mkInitDraws {
  seed_temperature : R;
  seed_humidity : R;
  seed_pressure : R;
  seed_wind_speed : R;
  seed_direction : Z
}.

(** Values drawn by one call of [generate], in the order of the call
    sites. *)
Record Draws : Type := mkDraws {
  temperature_variation : R;   (* random.gauss(0, 0.5), line 82 *)
  temperature_noise : R;       (* random.gauss(0, 0.3), line 85 *)
  humidity_variation : R;      (* random.gauss(0, 1),   line 88 *)
  humidity_noise : R;          (* random.gauss(0, 2),   line 93 *)
  pressure_variation : R;      (* random.gauss(0, 0.3), line 97 *)
  pressure_noise : R;          (* random.gauss(0, 0.5), line 100 *)
  wind_variation : R;          (* random.gauss(0, 0.5), line 103 *)
  gust_draw : R;               (* random.random(),      line 107 *)
  wind_noise : R;              (* random.gauss(0, 0.3), line 108 *)
  direction_draw : R;          (* random.random(),      line 112 *)
  direction_pick : bool;       (* random.choice([-1, 1]), line 113 *)
  condition_draw : R           (* random.random() of random.uniform, line 68 *)
}.

Definition valid_init_draws (d : InitDraws) : Prop :=
  Py.unit_draw (seed_temperature d) /\
  Py.unit_draw (seed_humidity d) /\
  Py.unit_draw (seed_pressure d) /\
  Py.unit_draw (seed_wind_speed d) /\
  (0 <= seed_direction d <= Z.of_nat (List.length WIND_DIRECTIONS) - 1)%Z.

(** ** The monad threading [self] *)

Definition Gen (A : Type) : Type := StationState -> StationState * (Py.Exn + A).

Definition ret {A : Type} (a : A) : Gen A := fun self => (self, inr a).

Definition bind {A B : Type} (m : Gen A) (k : A -> Gen B) : Gen B :=
  fun self =>
    match m self with
    | (self', inr a) => k a self'
    | (self', inl e) => (self', inl e)
    end.

Definition get : Gen StationState := fun self => (self, inr self).

Definition assign (f : StationState -> StationState) : Gen unit :=
  fun self => (f self, inr tt).

Definition lift {A : Type} (r : Py.Exn + A) : Gen A := fun self => (self, r).

Declare Scope gen_scope.
Delimit Scope gen_scope with gen.
Notation "x <- m ;; k" := (bind m (fun x => k))
  (at level 61, m at next level, right associativity) : gen_scope.
Notation "m ;; k" := (bind m (fun _ => k))
  (at level 61, right associativity) : gen_scope.

(** Attribute assignments [self.attr = v]. *)
Definition set_base_temperature (v : R) (s : StationState) : StationState :=
  mkState v (base_humidity s) (base_pressure s) (base_wind_speed s)
          (current_direction_idx s) (time_counter s).
Definition set_base_humidity (v : R) (s : StationState) : StationState :=
  mkState (base_temperature s) v (base_pressure s) (base_wind_speed s)
          (current_direction_idx s) (time_counter s).
Definition set_base_pressure (v : R) (s : StationState) : StationState :=
  mkState (base_temperature s) (base_humidity s) v (base_wind_speed s)
          (current_direction_idx s) (time_counter s).
Definition set_base_wind_speed (v : R) (s : StationState) : StationState :=
  mkState (base_temperature s) (base_humidity s) (base_pressure s) v
          (current_direction_idx s) (time_counter s).
Definition set_current_direction_idx (v : Z) (s : StationState) : StationState :=
  mkState (base_temperature s) (base_humidity s) (base_pressure s)
          (base_wind_speed s) v (time_counter s).
Definition set_time_counter (v : Z) (s : StationState) : StationState :=
  mkState (base_temperature s) (base_humidity s) (base_pressure s)
          (base_wind_speed s) (current_direction_idx s) v.

(** ** WeatherDataGenerator *)

(** [__init__] (lines 49-56). *)
Definition __init__ (d : InitDraws) : StationState :=
  {| base_temperature := Py.uniform 15 25 (seed_temperature d);
     base_humidity := Py.uniform 40 70 (seed_humidity d);
     base_pressure := Py.uniform 1000 1025 (seed_pressure d);
     base_wind_speed := Py.uniform 1 5 (seed_wind_speed d);
     current_direction_idx := seed_direction d;
     time_counter := 0 |}.

(** [_get_seasonal_factor] (lines 58-63); [hour] is [datetime.now().hour]. *)
Definition _get_seasonal_factor (hour : Z) : R :=
  sin ((IZR hour - 4) * PI / 12).

(** The [for] loop of [_weighted_choice] (lines 69-73): [None] when the
    loop ends without returning. *)
Fixpoint weighted_walk {A : Type} (choices : list (A * R)) (r upto : R)
  : option A :=
  match choices with
  | [] => None
  | (choice, weight) :: rest =>
      if Py.ge (upto + weight) r then Some choice
      else weighted_walk rest r (upto + weight)
  end.

(** [_weighted_choice] after [r] has been drawn (lines 69-74). *)
Definition weighted_select {A : Type} (choices : list (A * R)) (r : R)
  : Py.Exn + A :=
  match weighted_walk choices r 0 with
  | Some choice => inr choice
  | None =>
      match Py.index choices (-1) with
      | inr last_entry => inr (fst last_entry)
      | inl e => inl e
      end
  end.

(** [_weighted_choice] (lines 65-74); [u] is the [random.random()] value
    behind [random.uniform(0, total)]. *)
Definition _weighted_choice {A : Type} (choices : list (A * R)) (u : R)
  : Py.Exn + A :=
  let total := Py.sum (map snd choices) in
  let r := Py.uniform 0 total u in
  weighted_select choices r.

(** The regime test of lines 117-134. *)
Definition weather_choices (pressure humidity : R) : list (string * R) :=
  if (Py.lt pressure 1000 && Py.gt humidity 70)%bool then RAIN_CHOICES
  else if Py.gt pressure 1020 then FAIR_CHOICES
  else WEATHER_CONDITIONS.

Local Open Scope gen_scope.

(** [generate] (lines 76-145). *)
Definition generate (hour : Z) (d : Draws) : Gen WeatherReading :=
  assign (fun self => set_time_counter (time_counter self + 1) self) ;;
  let seasonal_factor := _get_seasonal_factor hour in

  let temperature_variation := temperature_variation d in
  assign (fun self =>
    set_base_temperature (base_temperature self + temperature_variation * 0.1) self) ;;
  assign (fun self =>
    set_base_temperature (Py.max (-10) (Py.min 35 (base_temperature self))) self) ;;
  self <- get ;;
  let temperature :=
    Py.round2 (base_temperature self + seasonal_factor * 5 + temperature_noise d) in

  let humidity_variation := humidity_variation d in
  assign (fun self =>
    set_base_humidity (base_humidity self + humidity_variation * 0.2) self) ;;
  let humidity_adjustment := - seasonal_factor * 10 in
  assign (fun self =>
    set_base_humidity
      (Py.max 20 (Py.min 100 (base_humidity self + humidity_adjustment * 0.1))) self) ;;
  self <- get ;;
  let humidity := Py.round2 (base_humidity self + humidity_noise d) in
  let humidity := Py.max 20 (Py.min 100 humidity) in

  let pressure_variation := pressure_variation d in
  assign (fun self =>
    set_base_pressure (base_pressure self + pressure_variation * 0.05) self) ;;
  assign (fun self =>
    set_base_pressure (Py.max 980 (Py.min 1040 (base_pressure self))) self) ;;
  self <- get ;;
  let pressure := Py.round2 (base_pressure self + pressure_noise d) in

  let wind_variation := wind_variation d in
  assign (fun self =>
    set_base_wind_speed (base_wind_speed self + wind_variation * 0.1) self) ;;
  assign (fun self =>
    set_base_wind_speed (Py.max 0 (Py.min 20 (base_wind_speed self))) self) ;;
  let gust := Py.lt (gust_draw d) 0.1 in
  self <- get ;;
  let wind_speed :=
    Py.round2 (base_wind_speed self * (if gust then 1.5 else 1) + wind_noise d) in
  let wind_speed := Py.max 0 (Py.min 25 wind_speed) in

  (if Py.lt (direction_draw d) 0.05 then
     assign (fun self =>
       set_current_direction_idx
         ((current_direction_idx self + Py.choice2 (-1) 1 (direction_pick d))
            mod Z.of_nat (List.length WIND_DIRECTIONS))%Z self)
   else ret tt) ;;
  self <- get ;;
  wind_direction <- lift (Py.index WIND_DIRECTIONS (current_direction_idx self)) ;;

  let weather_choices := weather_choices pressure humidity in
  weather_condition <- lift (_weighted_choice weather_choices (condition_draw d)) ;;

  ret {| temperature := temperature;
         humidity := humidity;
         pressure := pressure;
         wind_speed := wind_speed;
         wind_direction := wind_direction;
         weather_condition := weather_condition |}.

Local Close Scope gen_scope.

(** ** Sink adapter: [connect_to_db] (lines 148-162) *)

Section Sink.

(** The connection objects of the driver. *)
Variable Connection : Type.

(** What one call of [psycopg2.connect] does. *)
Inductive ConnectOutcome : Type :=
| Connects (conn : Connection)
| Fails (e : Py.Exn).

(** The environment: the outcome of the call number [k] (from 0) made
    by the process. *)
Variable psycopg2_connect : nat -> ConnectOutcome.

(** Lines printed by [connect_to_db]. *)
Inductive Message : Type :=
| MsgConnected (attempt_no : nat)
| MsgUnavailable (attempt_no total : nat) (delay : Z).

(** The observable effects: calls made to the driver, arguments of
    [time.sleep] and printed lines, oldest first. *)
Record World : Type := mkWorld {
  connect_calls : nat;
  slept : list Z;
  printed : list Message
}.

Definition fresh_world : World := mkWorld 0 [] [].

Definition do_connect (w : World) : World * ConnectOutcome :=
  (mkWorld (S (connect_calls w)) (slept w) (printed w),
   psycopg2_connect (connect_calls w)).

Definition do_print (m : Message) (w : World) : World :=
  mkWorld (connect_calls w) (slept w) (printed w ++ [m]).

Definition do_sleep (secs : Z) (w : World) : World :=
  mkWorld (connect_calls w) (slept w ++ [secs]) (printed w).

(** [except psycopg2.OperationalError]. *)
Definition is_OperationalError (e : Py.Exn) : bool :=
  match e with
  | Py.OperationalError => true
  | _ => false
  end.

Definition max_retries : nat := 30.
Definition retry_delay : Z := 2.

Definition exhausted_message : string :=
  "Не удалось подключиться к базе данных после всех попыток".

(** The [for attempt in ...] loop followed by the final [raise]. *)
Fixpoint connect_loop (attempts : list nat) (w : World)
  : World * (Py.Exn + Connection) :=
  match attempts with
  | [] => (w, inl (Py.Exception exhausted_message))
  | attempt :: rest =>
      match do_connect w with
      | (w, Connects conn) =>
          (do_print (MsgConnected (attempt + 1)) w, inr conn)
      | (w, Fails e) =>
          if is_OperationalError e then
            let w := do_print (MsgUnavailable (attempt + 1) max_retries retry_delay) w in
            let w := do_sleep retry_delay w in
            connect_loop rest w
          else (w, inl e)
      end
  end.

Definition connect_to_db (w : World) : World * (Py.Exn + Connection) :=
  connect_loop (seq 0 max_retries) w.

End Sink.

Arguments Connects {Connection} conn.
Arguments Fails {Connection} e.
Arguments connect_to_db {Connection} psycopg2_connect w.
Arguments connect_loop {Connection} psycopg2_connect attempts w.
Arguments do_connect {Connection} psycopg2_connect w.

(** ** Derived notions used in the statements *)

(** The latent state after one call of [generate]. *)
Definition next_base_temperature (d : Draws) (s : StationState) : R :=
  Py.max (-10) (Py.min 35 (base_temperature s + temperature_variation d * 0.1)).

Definition next_base_humidity (hour : Z) (d : Draws) (s : StationState) : R :=
  Py.max 20 (Py.min 100
    (base_humidity s + humidity_variation d * 0.2
     + - _get_seasonal_factor hour * 10 * 0.1)).

Definition next_base_pressure (d : Draws) (s : StationState) : R :=
  Py.max 980 (Py.min 1040 (base_pressure s + pressure_variation d * 0.05)).

Definition next_base_wind_speed (d : Draws) (s : StationState) : R :=
  Py.max 0 (Py.min 20 (base_wind_speed s + wind_variation d * 0.1)).

Definition next_direction_idx (d : Draws) (s : StationState) : Z :=
  if Py.lt (direction_draw d) 0.05
  then ((current_direction_idx s + Py.choice2 (-1) 1 (direction_pick d))
          mod Z.of_nat (List.length WIND_DIRECTIONS))%Z
  else current_direction_idx s.

Definition next_state (hour : Z) (d : Draws) (s : StationState) : StationState :=
  {| base_temperature := next_base_temperature d s;
     base_humidity := next_base_humidity hour d s;
     base_pressure := next_base_pressure d s;
     base_wind_speed := next_base_wind_speed d s;
     current_direction_idx := next_direction_idx d s;
     time_counter := time_counter s + 1 |}.

(** The numeric fields of the reading of one call. *)
Definition out_temperature (hour : Z) (d : Draws) (s : StationState) : R :=
  Py.round2 (next_base_temperature d s + _get_seasonal_factor hour * 5
             + temperature_noise d).

Definition out_humidity (hour : Z) (d : Draws) (s : StationState) : R :=
  Py.max 20 (Py.min 100 (Py.round2 (next_base_humidity hour d s + humidity_noise d))).

Definition out_pressure (d : Draws) (s : StationState) : R :=
  Py.round2 (next_base_pressure d s + pressure_noise d).

Definition out_wind_speed (d : Draws) (s : StationState) : R :=
  Py.max 0 (Py.min 25
    (Py.round2 (next_base_wind_speed d s
                * (if Py.lt (gust_draw d) 0.1 then 1.5 else 1)
                + wind_noise d))).

(** The clamp ranges of the latent state. *)
Definition state_in_range (s : StationState) : Prop :=
  -10 <= base_temperature s <= 35 /\
  20 <= base_humidity s <= 100 /\
  980 <= base_pressure s <= 1040 /\
  0 <= base_wind_speed s <= 20 /\
  (0 <= current_direction_idx s < 8)%Z.

(** States of a generator object: after construction, and after any
    number of calls of [generate], whatever the hour and the draws. *)
Inductive reachable : StationState -> Prop :=
| reachable_init (d : InitDraws) :
    valid_init_draws d -> reachable (__init__ d)
| reachable_generate (hour : Z) (d : Draws) (s : StationState) :
    reachable s -> reachable (fst (generate hour d s)).

(** Cumulative weight of the entries at positions [0 .. i]. *)
Definition cumulative_weight {A : Type} (choices : list (A * R)) (i : nat) : R :=
  Py.sum (map snd (firstn (S i) choices)).

(** Weighted selection as the specification words it: the first entry
    whose cumulative weight reaches [r], the last entry when there is
    none. *)
Definition selects {A : Type} (choices : list (A * R)) (r : R) (c : A) : Prop :=
  (exists i w,
      nth_error choices i = Some (c, w) /\
      cumulative_weight choices i >= r /\
      forall j, (j < i)%nat -> ~ cumulative_weight choices j >= r)
  \/
  ((forall j, (j < List.length choices)%nat -> ~ cumulative_weight choices j >= r) /\
   exists w, nth_error choices (List.length choices - 1) = Some (c, w)).

(** The effects of [n] unavailable attempts in a row, the first of them
    being the loop's attempt [a]. *)
Definition after_failures (a n : nat) (w : World) : World :=
  {| connect_calls := connect_calls w + n;
     slept := slept w ++ repeat retry_delay n;
     printed := printed w
                ++ map (fun i => MsgUnavailable (i + 1) max_retries retry_delay)
                       (seq a n) |}.

(** ** Sample inputs *)

(** Seed draws giving base temperature 20, humidity 55, pressure 1015,
    wind speed 3 and direction index 3. *)
Definition seed_example : InitDraws :=
  {| seed_temperature := 0.5;
     seed_humidity := 0.5;
     seed_pressure := 0.6;
     seed_wind_speed := 0.5;
     seed_direction := 3 |}.

(** A call in which nothing moves. *)
Definition calm_draws : Draws :=
  {| temperature_variation := 0; temperature_noise := 0;
     humidity_variation := 0; humidity_noise := 0;
     pressure_variation := 0; pressure_noise := 0;
     wind_variation := 0; gust_draw := 0.5; wind_noise := 0;
     direction_draw := 0.5; direction_pick := false;
     condition_draw := 0.5 |}.

(** A call that turns the wind and has some noise in every reading. *)
Definition gusty_draws : Draws :=
  {| temperature_variation := 0; temperature_noise := 0.25;
     humidity_variation := 1; humidity_noise := -1;
     pressure_variation := 1; pressure_noise := 0.5;
     wind_variation := 1; gust_draw := 0.05; wind_noise := 0.1;
     direction_draw := 0.01; direction_pick := true;
     condition_draw := 0.9 |}.

(** A call whose pressure perturbation drives the base to its upper clamp. *)
Definition surge_draws : Draws :=
  {| temperature_variation := 0; temperature_noise := 0;
     humidity_variation := 0; humidity_noise := 0;
     pressure_variation := 1000; pressure_noise := 0;
     wind_variation := 0; gust_draw := 0.5; wind_noise := 0;
     direction_draw := 0.5; direction_pick := false;
     condition_draw := 0.5 |}.

(** A call with pressure noise 0.006 and nothing else moving. *)
Definition edge_draws : Draws :=
  {| temperature_variation := 0; temperature_noise := 0;
     humidity_variation := 0; humidity_noise := 0;
     pressure_variation := 0; pressure_noise := 0.006;
     wind_variation := 0; gust_draw := 0.5; wind_noise := 0;
     direction_draw := 0.5; direction_pick := false;
     condition_draw := 0.5 |}.

(** The state after construction from [seed_example] and one call with
    [surge_draws] at hour 4: the base pressure sits at 1040. *)
Definition edge_state : StationState :=
  fst (generate 4 surge_draws (__init__ seed_example)).

(** A driver that is unavailable for the first three calls. *)
Definition connect_after_three : nat -> ConnectOutcome nat :=
  fun k => if (k <? 3)%nat then Fails Py.OperationalError else Connects 7%nat.

(** A driver that is never available. *)
Definition connect_never : nat -> ConnectOutcome nat :=
  fun _ => Fails Py.OperationalError.

(** A driver that is unavailable twice and then rejects the credentials. *)
Definition connect_rejected : nat -> ConnectOutcome nat :=
  fun k => if (k <? 2)%nat then Fails Py.OperationalError
           else Fails (Py.OtherError "ProgrammingError").

(** ** Successive calls of [generate] *)

(** The generator object after the calls listed in [calls], each with
    its hour and its draws. *)
Fixpoint generate_many (calls : list (Z * Draws)) (s : StationState) : StationState :=
  match calls with
  | [] => s
  | (hour, d) :: rest => generate_many rest (fst (generate hour d s))
  end.

(** What the reading of a call can show, whatever the draws. *)
Definition plausible (reading : WeatherReading) : Prop :=
  20 <= humidity reading <= 100 /\
  0 <= wind_speed reading <= 25 /\
  In (wind_direction reading) WIND_DIRECTIONS /\
  In (weather_condition reading) (map fst WEATHER_CONDITIONS).

(** ** [insert_weather_data] and [main] (lines 165-236) *)

(** [KeyboardInterrupt], which is not an [OperationalError]. *)
Definition KeyboardInterrupt : Py.Exn := Py.OtherError "KeyboardInterrupt".

Definition is_KeyboardInterrupt (e : Py.Exn) : bool :=
  match e with
  | Py.OtherError name => String.eqb name "KeyboardInterrupt"
  | _ => false
  end.

Section Main.

(** The connection objects and the timestamps of the driver. *)
Variable Connection : Type.
Variable Timestamp : Type.

(** [GENERATION_INTERVAL] (line 28), read from the environment. *)
Variable GENERATION_INTERVAL : Z.

(** What the database does with the statement of one call of
    [insert_weather_data]: [cur.execute] raises; or it succeeds,
    [cur.fetchone] gives the row (id, timestamp) and [conn.commit]
    raises; or the commit succeeds too. *)
Inductive InsertOutcome : Type :=
| Stored (record_id : Z) (timestamp : Timestamp)
| ExecuteFails (e : Py.Exn)
| CommitFails (e : Py.Exn).

(** The effects of [main] after the connection phase, oldest first. *)
Inductive Event : Type :=
| EvPrintStart
| EvExecute (params : R * R * R * R * string * string)
| EvCommit
| EvPrintRecord (record_id : Z) (timestamp : Timestamp) (data : WeatherReading)
| EvPrintStats (records_count : Z)
| EvSleep (secs : Z)
| EvPrintStopped (records_count : Z)
| EvClose (conn : Connection)
| EvPrintClosed.

(** The parameter tuple of [cur.execute] (lines 175-182). *)
Definition insert_params (data : WeatherReading) : R * R * R * R * string * string :=
  (temperature data, humidity data, pressure data, wind_speed data,
   wind_direction data, weather_condition data).

(** [insert_weather_data] (lines 165-185); [db] is what the database does
    with this call. *)
Definition insert_weather_data (db : InsertOutcome) (data : WeatherReading)
    (log : list Event) : list Event * (Py.Exn + (Z * Timestamp)) :=
  let log := log ++ [EvExecute (insert_params data)] in
  match db with
  | ExecuteFails e => (log, inl e)
  | CommitFails e => (log, inl e)
  | Stored record_id timestamp => (log ++ [EvCommit], inr (record_id, timestamp))
  end.

(** The environment of one iteration of the loop of [main]: the hour and
    the draws of the call of [generate], the reaction of the database, and
    whether a [KeyboardInterrupt] arrives during [time.sleep].  An
    interrupt is delivered either there or as the exception of the
    database call; the [print] calls and [conn.close()] do not raise. *)
Record Tick : Type := mkTick {
  tick_hour : Z;
  tick_draws : Draws;
  tick_insert : InsertOutcome;
  tick_interrupt : bool
}.

(** The local variables of [main] inside the loop, and the effects so far. *)
Record LoopState : Type := mkLoopState {
  loop_generator : StationState;
  loop_records_count : Z;
  loop_events : list Event
}.

(** How the [while True] loop stands after the listed iterations: an
    exception left it, or it is still running. *)
Inductive LoopEnd : Type :=
| LoopRaised (e : Py.Exn)
| LoopRunning.

(** The [while True] loop (lines 208-230), run over the iterations whose
    environment is listed. *)
Fixpoint main_loop (ticks : list Tick) (st : LoopState) : LoopState * LoopEnd :=
  match ticks with
  | [] => (st, LoopRunning)
  | t :: rest =>
      match generate (tick_hour t) (tick_draws t) (loop_generator st) with
      | (g, inl e) => (mkLoopState g (loop_records_count st) (loop_events st), LoopRaised e)
      | (g, inr weather_data) =>
          match insert_weather_data (tick_insert t) weather_data (loop_events st) with
          | (log, inl e) => (mkLoopState g (loop_records_count st) log, LoopRaised e)
          | (log, inr (record_id, timestamp)) =>
              let records_count := (loop_records_count st + 1)%Z in
              let log := log ++ [EvPrintRecord record_id timestamp weather_data] in
              let log :=
                if (records_count mod 60 =? 0)%Z
                then log ++ [EvPrintStats records_count]
                else log in
              let log := log ++ [EvSleep GENERATION_INTERVAL] in
              if tick_interrupt t
              then (mkLoopState g records_count log, LoopRaised KeyboardInterrupt)
              else main_loop rest (mkLoopState g records_count log)
          end
      end
  end.

(** How [main] stands: it returned (after a [KeyboardInterrupt] inside the
    [try]), an exception left it, or it is still in the loop. *)
Inductive MainOutcome : Type :=
| Exited
| Crashed (e : Py.Exn)
| Running.

Record MainResult : Type := mkMainResult {
  main_world : World;
  main_records : Z;
  main_log : list Event;
  main_outcome : MainOutcome
}.

(** [main] (lines 188-236).  The banner lines printed before connecting
    are not recorded. *)
Definition main (psycopg2_connect : nat -> ConnectOutcome Connection)
    (seed : InitDraws) (ticks : list Tick) : MainResult :=
  match connect_to_db psycopg2_connect fresh_world with
  | (w, inl e) => mkMainResult w 0 [] (Crashed e)
  | (w, inr conn) =>
      let generator := __init__ seed in
      let records_count := 0%Z in
      match main_loop ticks (mkLoopState generator records_count [EvPrintStart]) with
      | (st, LoopRunning) =>
          mkMainResult w (loop_records_count st) (loop_events st) Running
      | (st, LoopRaised e) =>
          if is_KeyboardInterrupt e then
            mkMainResult w (loop_records_count st)
              (loop_events st ++ [EvPrintStopped (loop_records_count st)]
                         ++ [EvClose conn; EvPrintClosed])
              Exited
          else
            mkMainResult w (loop_records_count st)
              (loop_events st ++ [EvClose conn; EvPrintClosed])
              (Crashed e)
      end
  end.

End Main.

Arguments Stored {Timestamp} record_id timestamp.
Arguments ExecuteFails {Timestamp} e.
Arguments CommitFails {Timestamp} e.
Arguments EvPrintStart {Connection Timestamp}.
Arguments EvExecute {Connection Timestamp} params.
Arguments EvCommit {Connection Timestamp}.
Arguments EvPrintRecord {Connection Timestamp} record_id timestamp data.
Arguments EvPrintStats {Connection Timestamp} records_count.
Arguments EvSleep {Connection Timestamp} secs.
Arguments EvPrintStopped {Connection Timestamp} records_count.
Arguments EvClose {Connection Timestamp} conn.
Arguments EvPrintClosed {Connection Timestamp}.
Arguments insert_weather_data {Connection Timestamp} db data log.
Arguments mkTick {Timestamp} tick_hour tick_draws tick_insert tick_interrupt.
Arguments tick_hour {Timestamp} t.
Arguments tick_draws {Timestamp} t.
Arguments tick_insert {Timestamp} t.
Arguments tick_interrupt {Timestamp} t.
Arguments mkLoopState {Connection Timestamp} loop_generator loop_records_count loop_events.
Arguments loop_generator {Connection Timestamp} l.
Arguments loop_records_count {Connection Timestamp} l.
Arguments loop_events {Connection Timestamp} l.
Arguments main_loop {Connection Timestamp} GENERATION_INTERVAL ticks st.
Arguments main {Connection Timestamp} GENERATION_INTERVAL psycopg2_connect seed ticks.
Arguments main_world {Connection Timestamp} m.
Arguments main_records {Connection Timestamp} m.
Arguments main_log {Connection Timestamp} m.
Arguments main_outcome {Connection Timestamp} m.

(** ** Reading the log of [main] *)

Section MainLog.

Context {Connection Timestamp : Type}.
Variable GENERATION_INTERVAL : Z.

(** The parameter tuples given to [cur.execute], in order. *)
Definition executed (log : list (Event Connection Timestamp))
  : list (R * R * R * R * string * string) :=
  flat_map (fun ev => match ev with EvExecute params => [params] | _ => [] end) log.

(** The number of successful [conn.commit()]. *)
Definition committed (log : list (Event Connection Timestamp)) : nat :=
  List.length (filter (fun ev => match ev with EvCommit => true | _ => false end) log).

(** The ids of the record lines printed (lines 217-223), in order. *)
Definition record_lines (log : list (Event Connection Timestamp)) : list Z :=
  flat_map (fun ev => match ev with EvPrintRecord record_id _ _ => [record_id] | _ => [] end)
           log.

(** The counts of the statistics lines printed (line 227), in order. *)
Definition stats_lines (log : list (Event Connection Timestamp)) : list Z :=
  flat_map (fun ev => match ev with EvPrintStats n => [n] | _ => [] end) log.

(** The arguments of [time.sleep] in the loop, in order. *)
Definition sleeps (log : list (Event Connection Timestamp)) : list Z :=
  flat_map (fun ev => match ev with EvSleep secs => [secs] | _ => [] end) log.

(** The connections given to [conn.close()], in order. *)
Definition closes (log : list (Event Connection Timestamp)) : list Connection :=
  flat_map (fun ev => match ev with EvClose conn => [conn] | _ => [] end) log.

(** The counts of the summary lines printed on interrupt (line 233). *)
Definition stopped_lines (log : list (Event Connection Timestamp)) : list Z :=
  flat_map (fun ev => match ev with EvPrintStopped n => [n] | _ => [] end) log.

(** One iteration of the loop of [main]: the loop state after it and the
    exception that left it, if any. *)
Definition tick_step (t : Tick Timestamp) (st : LoopState Connection Timestamp)
  : LoopState Connection Timestamp * option Py.Exn :=
  match generate (tick_hour t) (tick_draws t) (loop_generator st) with
  | (g, inl e) => (mkLoopState g (loop_records_count st) (loop_events st), Some e)
  | (g, inr weather_data) =>
      match insert_weather_data (tick_insert t) weather_data (loop_events st) with
      | (log, inl e) => (mkLoopState g (loop_records_count st) log, Some e)
      | (log, inr (record_id, timestamp)) =>
          let records_count := (loop_records_count st + 1)%Z in
          let log := log ++ [EvPrintRecord record_id timestamp weather_data] in
          let log :=
            if (records_count mod 60 =? 0)%Z
            then log ++ [EvPrintStats records_count]
            else log in
          let log := log ++ [EvSleep GENERATION_INTERVAL] in
          (mkLoopState g records_count log,
           if tick_interrupt t then Some KeyboardInterrupt else None)
      end
  end.

(** An iteration in which the database stores the record and no
    interrupt arrives. *)
Definition uneventful (t : Tick Timestamp) : Prop :=
  (exists record_id timestamp, tick_insert t = Stored record_id timestamp) /\
  tick_interrupt t = false.

(** The bookkeeping of the loop: the counter is the number of commits,
    of record lines and of sleeps; the statistics lines are those of the
    multiples of 60 reached; nothing is closed and no summary printed. *)
Definition books_balanced (st : LoopState Connection Timestamp) : Prop :=
  (0 <= loop_records_count st)%Z /\
  Z.of_nat (committed (loop_events st)) = loop_records_count st /\
  List.length (record_lines (loop_events st)) = committed (loop_events st) /\
  sleeps (loop_events st) = repeat GENERATION_INTERVAL (committed (loop_events st)) /\
  stats_lines (loop_events st)
    = map (fun i => (60 * (Z.of_nat i + 1))%Z)
          (seq 0 (Z.to_nat (loop_records_count st / 60))) /\
  closes (loop_events st) = [] /\
  stopped_lines (loop_events st) = [].

End MainLog.

(** ** Further sample inputs *)

(** A call that turns the wind the other way than [gusty_draws]. *)
Definition backing_draws : Draws :=
  {| temperature_variation := 0; temperature_noise := 0;
     humidity_variation := 0; humidity_noise := 0;
     pressure_variation := 0; pressure_noise := 0;
     wind_variation := 0; gust_draw := 0.5; wind_noise := 0;
     direction_draw := 0.02; direction_pick := false;
     condition_draw := 0.5 |}.

(** A driver whose first call is interrupted from the keyboard. *)
Definition connect_interrupted : nat -> ConnectOutcome nat :=
  fun _ => Fails KeyboardInterrupt.

(** A driver that connects at once. *)
Definition connect_at_once : nat -> ConnectOutcome nat :=
  fun _ => Connects 7%nat.

(** Iterations of the loop of [main]: the database stores the record under
    the given id; the same with an interrupt during the sleep; the
    database rejects the statement; the commit fails. *)
Definition stored_tick (record_id : Z) : Tick nat :=
  mkTick 14 gusty_draws (Stored record_id 0%nat) false.

Definition interrupted_tick (record_id : Z) : Tick nat :=
  mkTick 14 calm_draws (Stored record_id 0%nat) true.

Definition rejected_tick : Tick nat :=
  mkTick 14 calm_draws (ExecuteFails (Py.OtherError "IntegrityError")) false.

(** ** Facts about the built-ins *)

Lemma clamp_range (lo hi x : R) :
  lo <= hi -> lo <= Py.max lo (Py.min hi x) <= hi.
Proof.
  intros Hle. unfold Py.max, Py.min, Rmax, Rmin.
  destruct (Rle_dec hi x); destruct (Rle_dec lo _); lra.
Qed.

Lemma clamp_id (lo hi x : R) :
  lo <= x <= hi -> Py.max lo (Py.min hi x) = x.
Proof.
  intros H. unfold Py.max, Py.min, Rmax, Rmin.
  destruct (Rle_dec hi x); destruct (Rle_dec lo _); lra.
Qed.

Lemma lt_true (a b : R) : a < b -> Py.lt a b = true.
Proof. intros H. unfold Py.lt. destruct (Rlt_dec a b); [reflexivity | contradiction]. Qed.

Lemma lt_false (a b : R) : ~ a < b -> Py.lt a b = false.
Proof. intros H. unfold Py.lt. destruct (Rlt_dec a b); [contradiction | reflexivity]. Qed.



Lemma ge_true (a b : R) : a >= b -> Py.ge a b = true.
Proof. intros H. unfold Py.ge. destruct (Rge_dec a b); [reflexivity | contradiction]. Qed.

Lemma ge_false (a b : R) : ~ a >= b -> Py.ge a b = false.
Proof. intros H. unfold Py.ge. destruct (Rge_dec a b); [contradiction | reflexivity]. Qed.

(** Rounding to the nearest integer moves a number by at most 1/2. *)
Lemma round_half_even_near (y : R) :
  - (1 / 2) <= IZR (Py.round_half_even y) - y <= 1 / 2.
Proof.
  unfold Py.round_half_even.
  destruct (base_Int_part y) as [Hlo Hhi].
  destruct (Rlt_dec (y - IZR (Int_part y)) (1 / 2)) as [Hd | Hd]; [lra |].
  assert (Hup : - (1 / 2) <= IZR (Int_part y + 1) - y <= 1 / 2)
    by (rewrite plus_IZR; lra).
  destruct (Rlt_dec (1 / 2) (y - IZR (Int_part y))) as [Hu | Hu]; [exact Hup |].
  destruct (Z.even (Int_part y)); [lra | exact Hup].
Qed.

(** A number strictly within 1/2 of an integer rounds to it. *)
Lemma round_half_even_unique (y : R) (k : Z) :
  IZR k - 1 / 2 < y < IZR k + 1 / 2 -> Py.round_half_even y = k.
Proof.
  intros [Hlo Hhi]. unfold Py.round_half_even.
  destruct (Rle_dec (IZR k) y) as [Hk | Hk].
  - assert (Hf : k = Int_part y) by (apply Int_part_spec; lra).
    rewrite <- Hf.
    destruct (Rlt_dec (y - IZR k) (1 / 2)); [reflexivity | lra].
  - assert (Hf : (k - 1)%Z = Int_part y)
      by (apply Int_part_spec; rewrite minus_IZR; lra).
    rewrite <- Hf. rewrite minus_IZR.
    destruct (Rlt_dec (y - (IZR k - 1)) (1 / 2)); [lra |].
    destruct (Rlt_dec (1 / 2) (y - (IZR k - 1))); [f_equal; lia | lra].
Qed.

(** [round(x, 2)] moves a number by at most 0.005. *)
Lemma round2_near (x : R) : - 0.005 <= Py.round2 x - x <= 0.005.
Proof.
  unfold Py.round2.
  pose proof (round_half_even_near (x * 100)) as H. lra.
Qed.

Lemma round2_value (x : R) (k : Z) :
  IZR k - 1 / 2 < x * 100 < IZR k + 1 / 2 -> Py.round2 x = IZR k / 100.
Proof.
  intros H. unfold Py.round2. rewrite (round_half_even_unique _ k H). reflexivity.
Qed.

(** ** The run of [generate] *)

(** One call of [generate] in closed form: the new state, and the reading
    unless one of the two look-ups raises. *)
Lemma generate_run (hour : Z) (d : Draws) (s : StationState) :
  generate hour d s =
  (next_state hour d s,
   match Py.index WIND_DIRECTIONS (next_direction_idx d s) with
   | inl e => inl e
   | inr wd =>
       match _weighted_choice
               (weather_choices (out_pressure d s) (out_humidity hour d s))
               (condition_draw d) with
       | inl e => inl e
       | inr wc =>
           inr {| temperature := out_temperature hour d s;
                  humidity := out_humidity hour d s;
                  pressure := out_pressure d s;
                  wind_speed := out_wind_speed d s;
                  wind_direction := wd;
                  weather_condition := wc |}
       end
   end).
Proof.
  unfold generate, bind, assign, get, lift, ret, next_state, next_direction_idx.
  cbn [set_time_counter set_base_temperature set_base_humidity set_base_pressure
       set_base_wind_speed set_current_direction_idx
       base_temperature base_humidity base_pressure base_wind_speed
       current_direction_idx time_counter].
  destruct (Py.lt (direction_draw d) 0.05);
    cbn [set_current_direction_idx base_temperature base_humidity base_pressure
         base_wind_speed current_direction_idx time_counter];
    (destruct (Py.index WIND_DIRECTIONS _); [reflexivity |]);
    destruct (_weighted_choice _ _); reflexivity.
Qed.

(** ** The diurnal factor *)

Lemma seasonal_factor_bound (hour : Z) : -1 <= _get_seasonal_factor hour <= 1.
Proof. unfold _get_seasonal_factor. apply SIN_bound. Qed.

Lemma seasonal_factor_10 : _get_seasonal_factor 10 = 1.
Proof.
  unfold _get_seasonal_factor.
  replace ((10 - 4) * PI / 12) with (PI / 2) by lra.
  apply sin_PI2.
Qed.

Lemma seasonal_factor_14 : _get_seasonal_factor 14 = 1 / 2.
Proof.
  unfold _get_seasonal_factor.
  replace ((14 - 4) * PI / 12) with (PI - PI / 6) by lra.
  rewrite sin_PI_x. apply sin_PI6.
Qed.

Lemma seasonal_factor_4 : _get_seasonal_factor 4 = 0.
Proof.
  unfold _get_seasonal_factor.
  replace ((4 - 4) * PI / 12) with 0 by lra.
  apply sin_0.
Qed.

Lemma seasonal_factor_22 : _get_seasonal_factor 22 = -1.
Proof.
  unfold _get_seasonal_factor.
  replace ((22 - 4) * PI / 12) with (- (PI / 2) + 2 * INR 1 * PI) by (simpl; lra).
  rewrite sin_period, sin_neg, sin_PI2. reflexivity.
Qed.

(** C1.  The factor is [sin((hour - 4) * pi / 12)] and lies in [-1, 1] at
    every hour, but the sinusoid does not peak near hour 14 nor bottom
    near hour 4: its maximum 1 is reached at hour 10 (the value at hour 14
    is 1/2), its minimum -1 at hour 22, and hour 4 is a zero crossing. *)
Theorem seasonal_factor_extrema :
  (forall hour : Z,
      _get_seasonal_factor hour = sin ((IZR hour - 4) * PI / 12) /\
      -1 <= _get_seasonal_factor hour <= 1 /\
      _get_seasonal_factor hour <= _get_seasonal_factor 10 /\
      _get_seasonal_factor 22 <= _get_seasonal_factor hour) /\
  _get_seasonal_factor 10 = 1 /\
  _get_seasonal_factor 14 = 1 / 2 /\
  _get_seasonal_factor 22 = -1 /\
  _get_seasonal_factor 4 = 0.
Proof.
  split; [| repeat split;
            [apply seasonal_factor_10 | apply seasonal_factor_14
             | apply seasonal_factor_22 | apply seasonal_factor_4]].
  intros hour. pose proof (seasonal_factor_bound hour) as Hb.
  rewrite seasonal_factor_10, seasonal_factor_22.
  repeat split; try reflexivity; lra.
Qed.

(** ** Totality of [generate] *)

Lemma index_in_range {A : Type} (l : list A) (i : Z) :
  (0 <= i < Z.of_nat (List.length l))%Z ->
  exists x, Py.index l i = inr x /\ nth_error l (Z.to_nat i) = Some x.
Proof.
  intros Hi. unfold Py.index.
  destruct (Z.ltb_spec i 0) as [Hneg | _]; [lia |].
  destruct (Z.leb_spec 0 i) as [_ | Hneg]; [| lia].
  destruct (Z.ltb_spec i (Z.of_nat (List.length l))) as [_ | Hbig]; [| lia].
  cbn [andb].
  destruct (nth_error l (Z.to_nat i)) as [x |] eqn:Hnth.
  - exists x. split; reflexivity.
  - apply nth_error_None in Hnth. lia.
Qed.

Lemma last_cons {A : Type} (l : list A) (x y : A) :
  last (y :: l) x = last l y.
Proof.
  revert x y. induction l as [| z l IH]; intros x y; [reflexivity |].
  change (last (y :: z :: l) x) with (last (z :: l) x).
  rewrite (IH x z), (IH y z). reflexivity.
Qed.

Lemma last_In {A : Type} (l : list A) (x : A) : In (last l x) (x :: l).
Proof.
  revert x. induction l as [| y l IH]; intros x; [left; reflexivity |].
  right. rewrite last_cons. apply IH.
Qed.

Lemma index_last {A : Type} (x : A) (l : list A) :
  Py.index (x :: l) (-1) = inr (last l x).
Proof.
  unfold Py.index.
  replace (-1 <? 0)%Z with true by reflexivity.
  set (n := Z.of_nat (List.length (x :: l))).
  assert (Hn : (n = Z.of_nat (List.length l) + 1)%Z)
    by (unfold n; cbn [List.length]; lia).
  destruct (Z.leb_spec 0 (-1 + n)) as [_ | Hneg]; [| lia].
  destruct (Z.ltb_spec (-1 + n) n) as [_ | Hbig]; [| lia].
  cbn [andb].
  replace (Z.to_nat (-1 + n)) with (List.length l) by lia.
  clear n Hn. revert x.
  induction l as [| y l IH]; intros x; [reflexivity |].
  cbn [List.length nth_error]. rewrite IH, last_cons. reflexivity.
Qed.

Lemma weighted_walk_In {A : Type} (choices : list (A * R)) (r upto : R) (c : A) :
  weighted_walk choices r upto = Some c -> In c (map fst choices).
Proof.
  revert upto. induction choices as [| [choice weight] rest IH]; intros upto; cbn.
  - discriminate.
  - destruct (Py.ge (upto + weight) r).
    + intros [= <-]. left. reflexivity.
    + intros H. right. exact (IH _ H).
Qed.

(** On a non-empty list the selection returns one of the listed choices,
    whatever [r] is. *)
Lemma weighted_select_In {A : Type} (choices : list (A * R)) (r : R) :
  choices <> [] ->
  exists c, weighted_select choices r = inr c /\ In c (map fst choices).
Proof.
  intros Hne. unfold weighted_select.
  destruct (weighted_walk choices r 0) as [c |] eqn:Hw.
  - exists c. split; [reflexivity | exact (weighted_walk_In _ _ _ _ Hw)].
  - destruct choices as [| x l]; [contradiction |].
    rewrite index_last. exists (fst (last l x)). split; [reflexivity |].
    apply in_map. apply last_In.
Qed.

Lemma weather_choices_nonempty (p h : R) : weather_choices p h <> [].
Proof.
  unfold weather_choices.
  destruct (Py.lt p 1000 && Py.gt h 70)%bool; [discriminate |].
  destruct (Py.gt p 1020); discriminate.
Qed.

(** With the direction index inside the compass, [generate] returns a
    reading, whose fields are the ones computed along the way. *)
Lemma generate_returns (hour : Z) (d : Draws) (s : StationState) :
  (0 <= current_direction_idx s < 8)%Z ->
  exists wd wc,
    generate hour d s =
      (next_state hour d s,
       inr {| temperature := out_temperature hour d s;
              humidity := out_humidity hour d s;
              pressure := out_pressure d s;
              wind_speed := out_wind_speed d s;
              wind_direction := wd;
              weather_condition := wc |}) /\
    Py.index WIND_DIRECTIONS (next_direction_idx d s) = inr wd /\
    _weighted_choice (weather_choices (out_pressure d s) (out_humidity hour d s))
                     (condition_draw d) = inr wc /\
    In wc (map fst (weather_choices (out_pressure d s) (out_humidity hour d s))).
Proof.
  intros Hidx.
  assert (Hnext : (0 <= next_direction_idx d s < Z.of_nat (List.length WIND_DIRECTIONS))%Z).
  { unfold next_direction_idx. cbn [List.length WIND_DIRECTIONS].
    destruct (Py.lt (direction_draw d) 0.05); [apply Z.mod_pos_bound | ]; lia. }
  destruct (index_in_range _ _ Hnext) as [wd [Hwd _]].
  destruct (weighted_select_In
              (weather_choices (out_pressure d s) (out_humidity hour d s))
              (Py.uniform 0 (Py.sum (map snd
                 (weather_choices (out_pressure d s) (out_humidity hour d s))))
                 (condition_draw d))
              (weather_choices_nonempty _ _)) as [wc [Hwc Hin]].
  exists wd, wc. rewrite generate_run, Hwd.
  unfold _weighted_choice at 1. rewrite Hwc.
  repeat split; try reflexivity; assumption.
Qed.

(** ** The latent state stays in range *)

Lemma init_in_range (d : InitDraws) :
  valid_init_draws d -> state_in_range (__init__ d).
Proof.
  intros (Ht & Hh & Hp & Hw & Hd).
  unfold Py.unit_draw in *. cbn [List.length WIND_DIRECTIONS] in Hd.
  unfold state_in_range, __init__, Py.uniform; cbn.
  repeat split; try lra; lia.
Qed.

Lemma next_state_in_range (hour : Z) (d : Draws) (s : StationState) :
  (0 <= current_direction_idx s < 8)%Z -> state_in_range (next_state hour d s).
Proof.
  intros Hidx. unfold state_in_range, next_state; cbn.
  unfold next_base_temperature, next_base_humidity, next_base_pressure,
    next_base_wind_speed.
  repeat split; try (apply clamp_range; lra);
    unfold next_direction_idx; cbn [List.length WIND_DIRECTIONS];
    destruct (Py.lt (direction_draw d) 0.05);
    try (apply Z.mod_pos_bound); lia.
Qed.

(** C3.  After construction and after every call of [generate], whatever
    the draws and the hour, the latent state is in range: base temperature
    in [-10, 35], base humidity in [20, 100], base pressure in [980, 1040],
    base wind speed in [0, 20] and direction index in [0, 8). *)
Theorem reachable_state_in_range (s : StationState) :
  reachable s ->
  -10 <= base_temperature s <= 35 /\
  20 <= base_humidity s <= 100 /\
  980 <= base_pressure s <= 1040 /\
  0 <= base_wind_speed s <= 20 /\
  (0 <= current_direction_idx s < 8)%Z.
Proof.
  intros Hr. change (state_in_range s).
  induction Hr as [d Hd | hour d s Hr IH].
  - apply init_in_range. exact Hd.
  - rewrite generate_run. cbn [fst].
    apply next_state_in_range. apply IH.
Qed.

Lemma reachable_idx (s : StationState) :
  reachable s -> (0 <= current_direction_idx s < 8)%Z.
Proof.
  intros Hr. induction Hr as [d Hd | hour d s Hr IH].
  - apply (init_in_range d Hd).
  - rewrite generate_run. cbn [fst].
    apply (next_state_in_range hour d s IH).
Qed.

(** C9.  [generate] cannot fail: from every reachable state, at every
    hour (in particular in 0..23) and for every draw it returns a reading
    and raises nothing. *)
Theorem generate_total (hour : Z) (d : Draws) (s : StationState) :
  reachable s ->
  exists (s' : StationState) (reading : WeatherReading),
    generate hour d s = (s', inr reading).
Proof.
  intros Hr.
  destruct (generate_returns hour d s (reachable_idx s Hr)) as (wd & wc & Hg & _).
  eexists. eexists. exact Hg.
Qed.

Lemma seed_example_valid : valid_init_draws seed_example.
Proof.
  unfold valid_init_draws, Py.unit_draw, seed_example; cbn.
  repeat split; try lra; lia.
Qed.

Lemma seed_example_reachable : reachable (__init__ seed_example).
Proof. apply reachable_init. exact seed_example_valid. Qed.

Lemma reachable_state_in_range_witness :
  reachable (__init__ seed_example) /\
  -10 <= base_temperature (__init__ seed_example) <= 35 /\
  20 <= base_humidity (__init__ seed_example) <= 100 /\
  980 <= base_pressure (__init__ seed_example) <= 1040 /\
  0 <= base_wind_speed (__init__ seed_example) <= 20 /\
  (0 <= current_direction_idx (__init__ seed_example) < 8)%Z.
Proof.
  split.
  - exact seed_example_reachable.
  - apply (reachable_state_in_range (__init__ seed_example)).
    exact seed_example_reachable.
Defined.

Lemma generate_total_witness :
  reachable (__init__ seed_example) /\
  exists (s' : StationState) (reading : WeatherReading),
    generate 14 gusty_draws (__init__ seed_example) = (s', inr reading).
Proof.
  split.
  - exact seed_example_reachable.
  - apply (generate_total 14 gusty_draws (__init__ seed_example)).
    exact seed_example_reachable.
Defined.

(** ** The weather condition *)






(** ** Ranges of the reading *)

Lemma Rabs_bounds (x : R) : - Rabs x <= x <= Rabs x.
Proof. unfold Rabs. destruct (Rcase_abs x); lra. Qed.

(** C4 (amended).  Humidity lies in [20, 100] and wind speed in [0, 25];
    pressure lies within [980, 1040] widened by the size of its noise
    draw and by the 0.005 that rounding to two decimals can add;
    temperature lies within [-10, 35] widened by the seasonal addend (at
    most 5), the size of its noise draw and the same 0.005. *)
Theorem reading_ranges (hour : Z) (d : Draws) (s : StationState) :
  reachable s ->
  exists (s' : StationState) (reading : WeatherReading),
    generate hour d s = (s', inr reading) /\
    20 <= humidity reading <= 100 /\
    0 <= wind_speed reading <= 25 /\
    980 - Rabs (pressure_noise d) - 0.005
      <= pressure reading
      <= 1040 + Rabs (pressure_noise d) + 0.005 /\
    -10 - 5 - Rabs (temperature_noise d) - 0.005
      <= temperature reading
      <= 35 + 5 + Rabs (temperature_noise d) + 0.005.
Proof.
  intros Hr.
  destruct (generate_returns hour d s (reachable_idx s Hr)) as (wd & wc & Hg & _).
  eexists. eexists. split; [exact Hg |].
  cbn [humidity wind_speed pressure temperature].
  split; [| split; [| split]].
  - unfold out_humidity. apply clamp_range. lra.
  - unfold out_wind_speed. apply clamp_range. lra.
  - unfold out_pressure.
    pose proof (round2_near (next_base_pressure d s + pressure_noise d)) as Hround.
    assert (Hbase : 980 <= next_base_pressure d s <= 1040)
      by (apply clamp_range; lra).
    pose proof (Rabs_bounds (pressure_noise d)). lra.
  - unfold out_temperature.
    pose proof (round2_near (next_base_temperature d s
                             + _get_seasonal_factor hour * 5
                             + temperature_noise d)) as Hround.
    assert (Hbase : -10 <= next_base_temperature d s <= 35)
      by (apply clamp_range; lra).
    pose proof (seasonal_factor_bound hour).
    pose proof (Rabs_bounds (temperature_noise d)). lra.
Qed.

Lemma reading_ranges_witness :
  reachable (__init__ seed_example) /\
  exists (s' : StationState) (reading : WeatherReading),
    generate 14 gusty_draws (__init__ seed_example) = (s', inr reading) /\
    20 <= humidity reading <= 100 /\
    0 <= wind_speed reading <= 25 /\
    980 - Rabs (pressure_noise gusty_draws) - 0.005
      <= pressure reading
      <= 1040 + Rabs (pressure_noise gusty_draws) + 0.005 /\
    -10 - 5 - Rabs (temperature_noise gusty_draws) - 0.005
      <= temperature reading
      <= 35 + 5 + Rabs (temperature_noise gusty_draws) + 0.005.
Proof.
  split.
  - exact seed_example_reachable.
  - apply (reading_ranges 14 gusty_draws (__init__ seed_example)).
    exact seed_example_reachable.
Defined.

Lemma edge_state_reachable : reachable edge_state.
Proof. apply reachable_generate. exact seed_example_reachable. Qed.

Lemma edge_state_pressure : base_pressure edge_state = 1040.
Proof.
  unfold edge_state. rewrite generate_run.
  cbn [fst next_state base_pressure].
  unfold next_base_pressure, Py.max, Py.min.
  cbn [__init__ seed_example surge_draws base_pressure pressure_variation seed_pressure].
  unfold Py.uniform.
  rewrite Rmin_left by lra. rewrite Rmax_right by lra. reflexivity.
Qed.

Lemma edge_out_pressure : out_pressure edge_draws edge_state = 1040.01.
Proof.
  unfold out_pressure, next_base_pressure.
  rewrite edge_state_pressure.
  cbn [edge_draws pressure_variation pressure_noise].
  rewrite clamp_id by lra.
  rewrite (round2_value _ 104001) by lra. lra.
Qed.

(** C4 as stated fails.  From the reachable state [edge_state] (base
    pressure 1040), the call with pressure noise 0.006 returns pressure
    [round(1040.006, 2) = 1040.01], above [1040 + |0.006|]. *)
Lemma pressure_leaves_noise_band :
  reachable edge_state /\
  exists (s' : StationState) (reading : WeatherReading),
    generate 4 edge_draws edge_state = (s', inr reading) /\
    pressure_noise edge_draws = 0.006 /\
    pressure reading = 1040.01 /\
    ~ (980 - Rabs (pressure_noise edge_draws)
         <= pressure reading
         <= 1040 + Rabs (pressure_noise edge_draws)).
Proof.
  split; [exact edge_state_reachable |].
  destruct (generate_returns 4 edge_draws edge_state
              (reachable_idx _ edge_state_reachable)) as (wd & wc & Hg & _).
  eexists. eexists. split; [exact Hg |].
  cbn [pressure]. rewrite edge_out_pressure.
  split; [reflexivity |]. split; [reflexivity |].
  cbn [pressure_noise edge_draws].
  rewrite Rabs_right by lra. lra.
Qed.

(** ** Wind direction *)

(** C7.  In one call of [generate] the direction index stays where it is
    when the draw of line 112 is not below 0.05, and moves to the
    neighbour at +1 or -1 modulo 8 when it is; the reading carries the
    compass label found at the resulting index. *)
Theorem wind_direction_step (hour : Z) (d : Draws) (s : StationState) :
  reachable s ->
  exists (s' : StationState) (reading : WeatherReading),
    generate hour d s = (s', inr reading) /\
    (~ direction_draw d < 0.05 ->
       current_direction_idx s' = current_direction_idx s) /\
    (direction_draw d < 0.05 ->
       current_direction_idx s' = ((current_direction_idx s + 1) mod 8)%Z \/
       current_direction_idx s' = ((current_direction_idx s - 1) mod 8)%Z) /\
    (current_direction_idx s' = current_direction_idx s \/
     current_direction_idx s' = ((current_direction_idx s + 1) mod 8)%Z \/
     current_direction_idx s' = ((current_direction_idx s - 1) mod 8)%Z) /\
    Py.index WIND_DIRECTIONS (current_direction_idx s') = inr (wind_direction reading).
Proof.
  intros Hr.
  destruct (generate_returns hour d s (reachable_idx s Hr))
    as (wd & wc & Hg & Hwd & _).
  eexists. eexists. split; [exact Hg |].
  cbn [next_state current_direction_idx wind_direction].
  split; [| split; [| split; [| exact Hwd]]].
  - intros Hge. unfold next_direction_idx.
    rewrite (lt_false _ _ Hge). reflexivity.
  - intros Hlt. unfold next_direction_idx.
    rewrite (lt_true _ _ Hlt). cbn [List.length WIND_DIRECTIONS].
    destruct (direction_pick d); cbn [Py.choice2]; [left | right]; reflexivity.
  - unfold next_direction_idx. cbn [List.length WIND_DIRECTIONS].
    destruct (Py.lt (direction_draw d) 0.05); [| left; reflexivity].
    right. destruct (direction_pick d); cbn [Py.choice2]; [left | right]; reflexivity.
Qed.

Lemma wind_direction_step_witness :
  reachable (__init__ seed_example) /\
  exists (s' : StationState) (reading : WeatherReading),
    generate 14 gusty_draws (__init__ seed_example) = (s', inr reading) /\
    (~ direction_draw gusty_draws < 0.05 -> current_direction_idx s' = 3%Z) /\
    (direction_draw gusty_draws < 0.05 ->
       current_direction_idx s' = ((3 + 1) mod 8)%Z \/
       current_direction_idx s' = ((3 - 1) mod 8)%Z) /\
    (current_direction_idx s' = 3%Z \/
     current_direction_idx s' = ((3 + 1) mod 8)%Z \/
     current_direction_idx s' = ((3 - 1) mod 8)%Z) /\
    Py.index WIND_DIRECTIONS (current_direction_idx s') = inr (wind_direction reading).
Proof.
  split.
  - exact seed_example_reachable.
  - apply (wind_direction_step 14 gusty_draws (__init__ seed_example)).
    exact seed_example_reachable.
Defined.

(** ** The seasonal addend is not persisted *)

(** C8.  The base temperature after a call is the clamp of the base
    before the call plus a tenth of the perturbation draw: two calls that
    agree on these two agree on the new base, whatever their hours and
    their other draws.  The seasonal addend [factor * 5] enters only the
    temperature of the reading. *)
Theorem base_temperature_frame
    (hour1 hour2 : Z) (d1 d2 : Draws) (s1 s2 : StationState) :
  reachable s1 ->
  base_temperature s1 = base_temperature s2 ->
  temperature_variation d1 = temperature_variation d2 ->
  base_temperature (fst (generate hour1 d1 s1))
    = base_temperature (fst (generate hour2 d2 s2)) /\
  base_temperature (fst (generate hour1 d1 s1))
    = Py.max (-10) (Py.min 35 (base_temperature s1 + temperature_variation d1 * 0.1)) /\
  exists reading : WeatherReading,
    snd (generate hour1 d1 s1) = inr reading /\
    temperature reading
      = Py.round2 (base_temperature (fst (generate hour1 d1 s1))
                   + _get_seasonal_factor hour1 * 5
                   + temperature_noise d1).
Proof.
  intros Hr Hbase Hvar.
  destruct (generate_returns hour1 d1 s1 (reachable_idx s1 Hr))
    as (wd & wc & Hg & _).
  rewrite Hg. rewrite (generate_run hour2 d2 s2).
  cbn [fst snd next_state base_temperature].
  unfold next_base_temperature.
  split; [rewrite Hbase, Hvar; reflexivity |].
  split; [reflexivity |].
  eexists. split; [reflexivity |].
  cbn [temperature]. reflexivity.
Qed.

Lemma base_temperature_frame_witness :
  base_temperature (fst (generate 10 calm_draws (__init__ seed_example)))
    = base_temperature (fst (generate 22 edge_draws (__init__ seed_example))) /\
  base_temperature (fst (generate 10 calm_draws (__init__ seed_example)))
    = Py.max (-10) (Py.min 35
        (base_temperature (__init__ seed_example)
         + temperature_variation calm_draws * 0.1)) /\
  exists reading : WeatherReading,
    snd (generate 10 calm_draws (__init__ seed_example)) = inr reading /\
    temperature reading
      = Py.round2 (base_temperature (fst (generate 10 calm_draws (__init__ seed_example)))
                   + _get_seasonal_factor 10 * 5
                   + temperature_noise calm_draws).
Proof.
  apply (base_temperature_frame 10 22 calm_draws edge_draws
           (__init__ seed_example) (__init__ seed_example)).
  - exact seed_example_reachable.
  - reflexivity.
  - reflexivity.
Defined.

(** ** Weighted selection *)

Lemma sum_acc (xs : list R) (a : R) : fold_left Rplus xs a = a + Py.sum xs.
Proof.
  unfold Py.sum. revert a.
  induction xs as [| x xs IH]; intros a; cbn [fold_left]; [lra |].
  rewrite (IH (a + x)), (IH (0 + x)). lra.
Qed.

Lemma cumulative_weight_0 {A : Type} (c : A) (w : R) (rest : list (A * R)) :
  cumulative_weight ((c, w) :: rest) 0 = w.
Proof. unfold cumulative_weight, Py.sum. cbn. lra. Qed.

Lemma cumulative_weight_S {A : Type} (c : A) (w : R) (rest : list (A * R)) (j : nat) :
  cumulative_weight ((c, w) :: rest) (S j) = w + cumulative_weight rest j.
Proof.
  unfold cumulative_weight.
  change (firstn (S (S j)) ((c, w) :: rest)) with ((c, w) :: firstn (S j) rest).
  cbn [map snd]. unfold Py.sum at 1. cbn [fold_left].
  rewrite sum_acc. lra.
Qed.

(** The loop returns the first entry at which the running total reaches
    [r], and falls through when no entry does. *)
Lemma weighted_walk_spec {A : Type} (choices : list (A * R)) (r upto : R) :
  match weighted_walk choices r upto with
  | Some c =>
      exists i w,
        nth_error choices i = Some (c, w) /\
        upto + cumulative_weight choices i >= r /\
        forall j, (j < i)%nat -> ~ upto + cumulative_weight choices j >= r
  | None =>
      forall j, (j < List.length choices)%nat ->
                ~ upto + cumulative_weight choices j >= r
  end.
Proof.
  revert upto.
  induction choices as [| [c0 w0] rest IH]; intros upto; cbn [weighted_walk].
  - intros j Hj. cbn in Hj. lia.
  - unfold Py.ge. destruct (Rge_dec (upto + w0) r) as [Hge | Hlt].
    + exists 0%nat, w0. split; [reflexivity |].
      rewrite cumulative_weight_0. split; [exact Hge |].
      intros j Hj. lia.
    + specialize (IH (upto + w0)).
      destruct (weighted_walk rest r (upto + w0)) as [c |].
      * destruct IH as (i & w & Hnth & Hreach & Hfirst).
        exists (S i), w. split; [exact Hnth |].
        rewrite cumulative_weight_S. split; [lra |].
        intros [| j] Hj.
        -- rewrite cumulative_weight_0. exact Hlt.
        -- rewrite cumulative_weight_S.
           assert (Hj' : (j < i)%nat) by lia.
           specialize (Hfirst j Hj'). lra.
      * intros [| j] Hj.
        -- rewrite cumulative_weight_0. exact Hlt.
        -- rewrite cumulative_weight_S. cbn [List.length] in Hj.
           assert (Hj' : (j < List.length rest)%nat) by lia.
           specialize (IH j Hj'). lra.
Qed.

Lemma last_nth_error {A : Type} (l : list A) (x : A) :
  nth_error (x :: l) (List.length (x :: l) - 1) = Some (last l x).
Proof.
  cbn [List.length]. rewrite Nat.sub_1_r. cbn [Nat.pred].
  revert x. induction l as [| y l IH]; intros x; [reflexivity |].
  cbn [List.length nth_error]. rewrite last_cons. apply IH.
Qed.

Lemma weighted_select_selects {A : Type} (choices : list (A * R)) (r : R) :
  choices <> [] ->
  exists c, weighted_select choices r = inr c /\ selects choices r c.
Proof.
  intros Hne. unfold weighted_select, selects.
  pose proof (weighted_walk_spec choices r 0) as Hwalk.
  destruct (weighted_walk choices r 0) as [c |].
  - exists c. split; [reflexivity |]. left.
    destruct Hwalk as (i & w & Hnth & Hreach & Hfirst).
    exists i, w. split; [exact Hnth |]. split; [lra |].
    intros j Hj. specialize (Hfirst j Hj). lra.
  - destruct choices as [| x l]; [contradiction |].
    rewrite index_last. exists (fst (last l x)). split; [reflexivity |]. right.
    split.
    + intros j Hj. specialize (Hwalk j Hj). lra.
    + exists (snd (last l x)). rewrite last_nth_error.
      destruct (last l x); reflexivity.
Qed.

(** C6.  On a non-empty list and a draw [r] between 0 and the total
    weight, the selection returns the first entry whose cumulative weight
    is at least [r], the last entry if there is none; [_weighted_choice]
    is this selection at the [r] it draws.  On the list [(a, 1); (b, 0)]
    it returns [a] for every draw. *)
Theorem weighted_select_first_cumulative
    {A : Type} (choices : list (A * R)) (r : R) (a b : A) :
  choices <> [] ->
  0 <= r <= Py.sum (map snd choices) ->
  (exists c, weighted_select choices r = inr c /\ selects choices r c) /\
  (forall u, exists c,
      _weighted_choice choices u = inr c /\
      selects choices (Py.uniform 0 (Py.sum (map snd choices)) u) c) /\
  (forall r1, 0 <= r1 <= Py.sum (map snd [(a, 1); (b, 0)]) ->
              weighted_select [(a, 1); (b, 0)] r1 = inr a) /\
  (forall u, 0 <= u <= 1 -> _weighted_choice [(a, 1); (b, 0)] u = inr a).
Proof.
  intros Hne _.
  split; [exact (weighted_select_selects choices r Hne) |].
  split; [intros u; exact (weighted_select_selects choices _ Hne) |].
  assert (Hsel : forall r1, r1 <= 1 -> weighted_select [(a, 1); (b, 0)] r1 = inr a).
  { intros r1 Hr1. unfold weighted_select. cbn [weighted_walk].
    rewrite ge_true by lra. reflexivity. }
  split.
  - intros r1 [_ Hr1]. apply Hsel.
    unfold Py.sum in Hr1. cbn in Hr1. lra.
  - intros u Hu. unfold _weighted_choice. apply Hsel.
    unfold Py.uniform, Py.sum. cbn. nra.
Qed.

Lemma weighted_select_first_cumulative_witness :
  (exists c, weighted_select WEATHER_CONDITIONS 0.5 = inr c /\
             selects WEATHER_CONDITIONS 0.5 c) /\
  (forall u, exists c,
      _weighted_choice WEATHER_CONDITIONS u = inr c /\
      selects WEATHER_CONDITIONS
              (Py.uniform 0 (Py.sum (map snd WEATHER_CONDITIONS)) u) c) /\
  (forall r1, 0 <= r1 <= Py.sum (map snd [(Clear, 1); (Fog, 0)]) ->
              weighted_select [(Clear, 1); (Fog, 0)] r1 = inr Clear) /\
  (forall u, 0 <= u <= 1 -> _weighted_choice [(Clear, 1); (Fog, 0)] u = inr Clear).
Proof.
  apply (weighted_select_first_cumulative WEATHER_CONDITIONS 0.5 Clear Fog).
  - discriminate.
  - unfold Py.sum, WEATHER_CONDITIONS. cbn. lra.
Defined.

(** ** Connection retry *)

Section SinkFacts.

Context {Connection : Type}.
Variable connect : nat -> ConnectOutcome Connection.

Lemma after_failures_0 (a : nat) (w : World) : after_failures a 0 w = w.
Proof.
  destruct w as [calls sl pr]. unfold after_failures; cbn.
  rewrite Nat.add_0_r, !app_nil_r. reflexivity.
Qed.

(** [n] unavailable attempts in a row take the loop [n] iterations
    further, each with one call, one line printed and one sleep. *)
Lemma connect_loop_failures (n m : nat) :
  forall (a : nat) (w : World),
    (forall k, (k < n)%nat ->
               connect (connect_calls w + k) = Fails Py.OperationalError) ->
    connect_loop connect (seq a (n + m)) w
      = connect_loop connect (seq (a + n) m) (after_failures a n w).
Proof.
  induction n as [| n IH]; intros a w Hfail.
  - rewrite after_failures_0, Nat.add_0_r. reflexivity.
  - cbn [Nat.add seq connect_loop do_connect].
    pose proof (Hfail 0%nat ltac:(lia)) as H0.
    rewrite Nat.add_0_r in H0. rewrite H0. cbn [is_OperationalError].
    rewrite IH.
    + replace (S a + n)%nat with (a + S n)%nat by lia.
      f_equal. unfold after_failures, do_sleep, do_print; cbn.
      rewrite <- !app_assoc. cbn [app].
      f_equal. lia.
    + intros k Hk. cbn.
      replace (S (connect_calls w + k)) with (connect_calls w + S k)%nat by lia.
      apply Hfail. lia.
Qed.

(** Whatever the driver does, the loop calls it at most once per
    iteration and only ever sleeps for [retry_delay]. *)
Lemma connect_loop_bounded (attempts : list nat) :
  forall w : World,
    (connect_calls (fst (connect_loop connect attempts w))
       <= connect_calls w + List.length attempts)%nat /\
    exists n, (n <= List.length attempts)%nat /\
              slept (fst (connect_loop connect attempts w))
                = slept w ++ repeat retry_delay n.
Proof.
  induction attempts as [| attempt rest IH]; intros w.
  - cbn. split; [lia |]. exists 0%nat. split; [lia |].
    cbn. rewrite app_nil_r. reflexivity.
  - cbn [connect_loop do_connect List.length].
    destruct (connect (connect_calls w)) as [conn | e].
    + cbn. split; [lia |]. exists 0%nat. split; [lia |].
      cbn. rewrite app_nil_r. reflexivity.
    + destruct (is_OperationalError e).
      * match goal with
        | |- context [connect_loop connect rest ?w1] =>
            destruct (IH w1) as (Hcalls & n & Hn & Hslept)
        end.
        cbn in Hcalls, Hslept. split; [lia |].
        exists (S n). split; [lia |].
        rewrite Hslept, <- app_assoc. reflexivity.
      * cbn. split; [lia |]. exists 0%nat. split; [lia |].
        cbn. rewrite app_nil_r. reflexivity.
Qed.

(** The run up to attempt [N + 1], when the first [N] attempts found
    the database unavailable. *)
Lemma connect_to_db_after (N : nat) :
  (N <= max_retries)%nat ->
  (forall k, (k < N)%nat -> connect k = Fails Py.OperationalError) ->
  connect_to_db connect fresh_world
    = connect_loop connect (seq N (max_retries - N)) (after_failures 0 N fresh_world).
Proof.
  intros HN Hfail. unfold connect_to_db.
  replace max_retries with (N + (max_retries - N))%nat at 1 by lia.
  rewrite connect_loop_failures; [reflexivity |].
  intros k Hk. cbn. apply Hfail. exact Hk.
Qed.

(** C5.  [connect_to_db] makes at most 30 attempts and every delay is 2
    seconds.  If the first [N < 30] attempts find the database
    unavailable and the next one connects, the connection is returned
    after exactly [N + 1] attempts (and [N] delays).  If all 30 attempts
    find it unavailable, the final exception is raised after exactly 30
    attempts. *)
Theorem connect_retry_bounded :
  (forall (N : nat) (conn : Connection),
      (N < 30)%nat ->
      (forall k, (k < N)%nat -> connect k = Fails Py.OperationalError) ->
      connect N = Connects conn ->
      snd (connect_to_db connect fresh_world) = inr conn /\
      connect_calls (fst (connect_to_db connect fresh_world)) = (N + 1)%nat /\
      slept (fst (connect_to_db connect fresh_world)) = repeat 2%Z N) /\
  ((forall k, (k < 30)%nat -> connect k = Fails Py.OperationalError) ->
      snd (connect_to_db connect fresh_world)
        = inl (Py.Exception exhausted_message) /\
      connect_calls (fst (connect_to_db connect fresh_world)) = 30%nat /\
      slept (fst (connect_to_db connect fresh_world)) = repeat 2%Z 30) /\
  (connect_calls (fst (connect_to_db connect fresh_world)) <= 30)%nat /\
  Forall (fun secs => secs = 2%Z) (slept (fst (connect_to_db connect fresh_world))).
Proof.
  split; [| split; [| split]].
  - intros N conn HN Hfail Hconn.
    rewrite (connect_to_db_after N) by (unfold max_retries; lia || exact Hfail).
    destruct (max_retries - N)%nat as [| m] eqn:Hm; [unfold max_retries in Hm; lia |].
    cbn [seq connect_loop do_connect after_failures connect_calls fresh_world].
    cbn [Nat.add]. rewrite Hconn. cbn.
    split; [reflexivity | split; [lia | reflexivity]].
  - intros Hfail.
    rewrite (connect_to_db_after max_retries) by (unfold max_retries; lia || exact Hfail).
    rewrite Nat.sub_diag. cbn [seq connect_loop].
    cbn. split; [reflexivity | split; reflexivity].
  - destruct (connect_loop_bounded (seq 0 max_retries) fresh_world) as [Hcalls _].
    rewrite length_seq in Hcalls. exact Hcalls.
  - destruct (connect_loop_bounded (seq 0 max_retries) fresh_world)
      as (_ & n & _ & Hslept).
    unfold connect_to_db. rewrite Hslept. cbn [fresh_world slept app].
    apply Forall_forall. intros secs Hin.
    apply repeat_spec in Hin. exact Hin.
Qed.

(** C10.  Only [OperationalError] is retried.  If the first [N < 30]
    attempts find the database unavailable and the next one raises any
    other exception, that exception leaves [connect_to_db] at once:
    no call follows it, no delay follows it, and it is not replaced by
    the exception of the exhausted loop. *)
Theorem connect_other_error_propagates (N : nat) (e : Py.Exn) :
  (N < 30)%nat ->
  (forall k, (k < N)%nat -> connect k = Fails Py.OperationalError) ->
  connect N = Fails e ->
  is_OperationalError e = false ->
  snd (connect_to_db connect fresh_world) = inl e /\
  connect_calls (fst (connect_to_db connect fresh_world)) = (N + 1)%nat /\
  slept (fst (connect_to_db connect fresh_world)) = repeat 2%Z N.
Proof.
  intros HN Hfail Hraise Hother.
  rewrite (connect_to_db_after N) by (unfold max_retries; lia || exact Hfail).
  destruct (max_retries - N)%nat as [| m] eqn:Hm; [unfold max_retries in Hm; lia |].
  cbn [seq connect_loop do_connect after_failures connect_calls fresh_world].
  cbn [Nat.add]. rewrite Hraise, Hother. cbn.
  split; [reflexivity | split; [lia | reflexivity]].
Qed.

End SinkFacts.

Lemma connect_after_three_fails (k : nat) :
  (k < 3)%nat -> connect_after_three k = Fails Py.OperationalError.
Proof.
  intros Hk. unfold connect_after_three.
  destruct (Nat.ltb_spec k 3); [reflexivity | lia].
Qed.

Lemma connect_rejected_fails (k : nat) :
  (k < 2)%nat -> connect_rejected k = Fails Py.OperationalError.
Proof.
  intros Hk. unfold connect_rejected.
  destruct (Nat.ltb_spec k 2); [reflexivity | lia].
Qed.

Lemma connect_retry_bounded_witness :
  (snd (connect_to_db connect_after_three fresh_world) = inr 7%nat /\
   connect_calls (fst (connect_to_db connect_after_three fresh_world)) = (3 + 1)%nat /\
   slept (fst (connect_to_db connect_after_three fresh_world)) = repeat 2%Z 3) /\
  (snd (connect_to_db connect_never fresh_world)
     = inl (Py.Exception exhausted_message) /\
   connect_calls (fst (connect_to_db connect_never fresh_world)) = 30%nat /\
   slept (fst (connect_to_db connect_never fresh_world)) = repeat 2%Z 30).
Proof.
  split.
  - apply (proj1 (connect_retry_bounded connect_after_three) 3%nat 7%nat).
    + lia.
    + exact connect_after_three_fails.
    + reflexivity.
  - apply (proj1 (proj2 (connect_retry_bounded connect_never))).
    intros k Hk. reflexivity.
Defined.

Lemma connect_other_error_propagates_witness :
  snd (connect_to_db connect_rejected fresh_world)
    = inl (Py.OtherError "ProgrammingError") /\
  connect_calls (fst (connect_to_db connect_rejected fresh_world)) = (2 + 1)%nat /\
  slept (fst (connect_to_db connect_rejected fresh_world)) = repeat 2%Z 2.
Proof.
  apply (connect_other_error_propagates connect_rejected 2%nat
           (Py.OtherError "ProgrammingError")).
  - lia.
  - exact connect_rejected_fails.
  - reflexivity.
  - reflexivity.
Defined.

(** ** Further facts about the generator *)



Lemma generate_many_reachable (calls : list (Z * Draws)) (s : StationState) :
  reachable s -> reachable (generate_many calls s).
Proof.
  revert s. induction calls as [| [hour d] rest IH]; intros s Hr; cbn [generate_many].
  - exact Hr.
  - apply IH. apply reachable_generate. exact Hr.
Qed.

(** X2.  The call counter counts the calls of [generate]: every call adds
    exactly one, so after any sequence of calls on a new generator it
    equals the number of calls. *)
Theorem time_counter_counts_calls (calls : list (Z * Draws)) :
  (forall s : StationState,
      time_counter (generate_many calls s)
        = (time_counter s + Z.of_nat (List.length calls))%Z) /\
  (forall seed : InitDraws,
      time_counter (generate_many calls (__init__ seed))
        = Z.of_nat (List.length calls)).
Proof.
  assert (Hgen : forall s : StationState,
             time_counter (generate_many calls s)
               = (time_counter s + Z.of_nat (List.length calls))%Z).
  { induction calls as [| [hour d] rest IH]; intros s.
    - cbn. lia.
    - cbn [generate_many List.length]. rewrite IH, generate_run.
      cbn [fst next_state time_counter]. lia. }
  split; [exact Hgen |].
  intros seed. rewrite Hgen. cbn. lia.
Qed.

(** Clamping to a range does not move a value further from a point of the
    range than it was. *)
Lemma clamp_nonexpansive (lo hi x y : R) :
  lo <= x <= hi -> Rabs (Py.max lo (Py.min hi y) - x) <= Rabs (y - x).
Proof.
  intros Hx. unfold Py.max, Py.min, Rmax, Rmin, Rabs.
  destruct (Rle_dec hi y); destruct (Rle_dec lo _);
    repeat match goal with
           | |- context [Rcase_abs ?z] => destruct (Rcase_abs z)
           end; lra.
Qed.

Lemma Rabs_scale (c x : R) : 0 <= c -> Rabs (x * c) = c * Rabs x.
Proof.
  intros Hc. rewrite Rabs_mult, (Rabs_right c) by lra. lra.
Qed.

(** X3.  The latent values move smoothly: from a reachable state, one
    call changes the base temperature by at most a tenth of its
    perturbation draw, the base pressure by at most a twentieth, the base
    wind speed by at most a tenth, and the base humidity by at most a
    fifth of its draw plus 1 (the seasonal adjustment). *)
Theorem base_step_bounded (hour : Z) (d : Draws) (s : StationState) :
  reachable s ->
  Rabs (base_temperature (fst (generate hour d s)) - base_temperature s)
    <= 0.1 * Rabs (temperature_variation d) /\
  Rabs (base_pressure (fst (generate hour d s)) - base_pressure s)
    <= 0.05 * Rabs (pressure_variation d) /\
  Rabs (base_wind_speed (fst (generate hour d s)) - base_wind_speed s)
    <= 0.1 * Rabs (wind_variation d) /\
  Rabs (base_humidity (fst (generate hour d s)) - base_humidity s)
    <= 0.2 * Rabs (humidity_variation d) + 1.
Proof.
  intros Hr.
  assert (Hin : state_in_range s)
    by (induction Hr as [seed Hseed | h d0 s0 Hr0 IH];
        [apply init_in_range; exact Hseed
        | rewrite generate_run; apply next_state_in_range; apply IH]).
  destruct Hin as (Ht & Hh & Hp & Hw & _).
  rewrite generate_run.
  cbn [fst next_state base_temperature base_pressure base_wind_speed base_humidity].
  unfold next_base_temperature, next_base_pressure, next_base_wind_speed,
    next_base_humidity.
  repeat split.
  - eapply Rle_trans; [apply clamp_nonexpansive; exact Ht |].
    replace (base_temperature s + temperature_variation d * 0.1 - base_temperature s)
      with (temperature_variation d * 0.1) by lra.
    rewrite Rabs_scale by lra. lra.
  - eapply Rle_trans; [apply clamp_nonexpansive; exact Hp |].
    replace (base_pressure s + pressure_variation d * 0.05 - base_pressure s)
      with (pressure_variation d * 0.05) by lra.
    rewrite Rabs_scale by lra. lra.
  - eapply Rle_trans; [apply clamp_nonexpansive; exact Hw |].
    replace (base_wind_speed s + wind_variation d * 0.1 - base_wind_speed s)
      with (wind_variation d * 0.1) by lra.
    rewrite Rabs_scale by lra. lra.
  - eapply Rle_trans; [apply clamp_nonexpansive; exact Hh |].
    replace (base_humidity s + humidity_variation d * 0.2
             + - _get_seasonal_factor hour * 10 * 0.1 - base_humidity s)
      with (humidity_variation d * 0.2 + - _get_seasonal_factor hour) by lra.
    eapply Rle_trans; [apply Rabs_triang |].
    rewrite Rabs_scale by lra. rewrite Rabs_Ropp.
    pose proof (seasonal_factor_bound hour) as Hb.
    assert (Rabs (_get_seasonal_factor hour) <= 1)
      by (unfold Rabs; destruct (Rcase_abs _); lra).
    lra.
Qed.

Lemma base_step_bounded_witness :
  Rabs (base_temperature (fst (generate 14 gusty_draws (__init__ seed_example)))
        - base_temperature (__init__ seed_example))
    <= 0.1 * Rabs (temperature_variation gusty_draws) /\
  Rabs (base_pressure (fst (generate 14 gusty_draws (__init__ seed_example)))
        - base_pressure (__init__ seed_example))
    <= 0.05 * Rabs (pressure_variation gusty_draws) /\
  Rabs (base_wind_speed (fst (generate 14 gusty_draws (__init__ seed_example)))
        - base_wind_speed (__init__ seed_example))
    <= 0.1 * Rabs (wind_variation gusty_draws) /\
  Rabs (base_humidity (fst (generate 14 gusty_draws (__init__ seed_example)))
        - base_humidity (__init__ seed_example))
    <= 0.2 * Rabs (humidity_variation gusty_draws) + 1.
Proof.
  apply (base_step_bounded 14 gusty_draws (__init__ seed_example)).
  apply reachable_init.
  unfold valid_init_draws, Py.unit_draw, seed_example; cbn.
  repeat split; try lra; lia.
Defined.

(** The factor is non-negative from hour 4 to hour 16 and non-positive
    in the other hours of the day. *)
Lemma seasonal_factor_sign (hour : Z) :
  ((4 <= hour <= 16)%Z -> 0 <= _get_seasonal_factor hour) /\
  ((0 <= hour <= 4 \/ 16 <= hour <= 23)%Z -> _get_seasonal_factor hour <= 0).
Proof.
  pose proof PI_RGT_0 as Hpi. unfold _get_seasonal_factor. split.
  - intros [Hlo Hhi]. apply IZR_le in Hlo, Hhi.
    apply sin_ge_0; nra.
  - intros [[Hlo Hhi] | [Hlo Hhi]]; apply IZR_le in Hlo, Hhi.
    + replace ((IZR hour - 4) * PI / 12) with (- ((4 - IZR hour) * PI / 12)) by lra.
      rewrite sin_neg.
      assert (0 <= sin ((4 - IZR hour) * PI / 12)) by (apply sin_ge_0; nra).
      lra.
    + apply sin_le_0; nra.
Qed.

(** X4.  Unlike the base temperature, the base humidity keeps the
    seasonal adjustment.  From a reachable state, a call between hour 4
    and hour 16 whose humidity perturbation is not positive does not raise
    the base humidity, and a call in the other hours whose perturbation is
    not negative does not lower it.  At hour 10 a call without
    perturbation lowers it by exactly 1, down to the floor 20. *)
Theorem base_humidity_follows_hour (hour : Z) (d : Draws) (s : StationState) :
  reachable s ->
  ((4 <= hour <= 16)%Z -> humidity_variation d <= 0 ->
     base_humidity (fst (generate hour d s)) <= base_humidity s) /\
  ((0 <= hour <= 4 \/ 16 <= hour <= 23)%Z -> 0 <= humidity_variation d ->
     base_humidity s <= base_humidity (fst (generate hour d s))) /\
  (hour = 10%Z -> humidity_variation d = 0 ->
     base_humidity (fst (generate hour d s)) = Rmax 20 (base_humidity s - 1)).
Proof.
  intros Hr.
  assert (Hin : state_in_range s)
    by (induction Hr as [seed Hseed | h d0 s0 Hr0 IH];
        [apply init_in_range; exact Hseed
        | rewrite generate_run; apply next_state_in_range; apply IH]).
  destruct Hin as (_ & Hh & _).
  rewrite generate_run. cbn [fst next_state base_humidity].
  unfold next_base_humidity, Py.max, Py.min.
  destruct (seasonal_factor_sign hour) as [Hpos Hneg].
  split; [| split].
  - intros Hhour Hvar. specialize (Hpos Hhour).
    unfold Rmax, Rmin. destruct (Rle_dec 100 _); destruct (Rle_dec 20 _); lra.
  - intros Hhour Hvar. specialize (Hneg Hhour).
    unfold Rmax, Rmin. destruct (Rle_dec 100 _); destruct (Rle_dec 20 _); lra.
  - intros -> Hvar. rewrite seasonal_factor_10, Hvar.
    rewrite Rmin_right by lra. f_equal. lra.
Qed.

Lemma base_humidity_follows_hour_witness :
  ((4 <= 10 <= 16)%Z -> humidity_variation calm_draws <= 0 ->
     base_humidity (fst (generate 10 calm_draws (__init__ seed_example)))
       <= base_humidity (__init__ seed_example)) /\
  ((0 <= 10 <= 4 \/ 16 <= 10 <= 23)%Z -> 0 <= humidity_variation calm_draws ->
     base_humidity (__init__ seed_example)
       <= base_humidity (fst (generate 10 calm_draws (__init__ seed_example)))) /\
  (10%Z = 10%Z -> humidity_variation calm_draws = 0 ->
     base_humidity (fst (generate 10 calm_draws (__init__ seed_example)))
       = Rmax 20 (base_humidity (__init__ seed_example) - 1)).
Proof.
  apply (base_humidity_follows_hour 10 calm_draws (__init__ seed_example)).
  apply reachable_init.
  unfold valid_init_draws, Py.unit_draw, seed_example; cbn.
  repeat split; try lra; lia.
Defined.

(** X5.  Noise, gust and condition draws never reach the latent state:
    two calls at the same hour that agree on the four perturbation draws
    and on the two direction draws leave the generator in the same state,
    whatever their other draws. *)
Theorem noise_not_persisted (hour : Z) (d1 d2 : Draws) (s : StationState) :
  temperature_variation d1 = temperature_variation d2 ->
  humidity_variation d1 = humidity_variation d2 ->
  pressure_variation d1 = pressure_variation d2 ->
  wind_variation d1 = wind_variation d2 ->
  direction_draw d1 = direction_draw d2 ->
  direction_pick d1 = direction_pick d2 ->
  fst (generate hour d1 s) = fst (generate hour d2 s).
Proof.
  intros Ht Hh Hp Hw Hdd Hdp.
  rewrite !generate_run. cbn [fst].
  unfold next_state, next_base_temperature, next_base_humidity,
    next_base_pressure, next_base_wind_speed, next_direction_idx.
  rewrite Ht, Hh, Hp, Hw, Hdd, Hdp. reflexivity.
Qed.

Lemma noise_not_persisted_witness :
  fst (generate 14 calm_draws (__init__ seed_example))
    = fst (generate 14 edge_draws (__init__ seed_example)).
Proof.
  apply (noise_not_persisted 14 calm_draws edge_draws (__init__ seed_example));
    reflexivity.
Defined.

Lemma round2_hundredth (x : R) : exists k : Z, Py.round2 x = IZR k / 100.
Proof. exists (Py.round_half_even (x * 100)). reflexivity. Qed.

Lemma clamp_hundredth (lo hi : Z) (x : R) :
  (exists k : Z, x = IZR k / 100) ->
  exists k : Z, Py.max (IZR lo) (Py.min (IZR hi) x) = IZR k / 100.
Proof.
  intros [k Hk]. unfold Py.max, Py.min, Rmax, Rmin.
  destruct (Rle_dec (IZR hi) x); destruct (Rle_dec (IZR lo) _).
  - exists (hi * 100)%Z. rewrite mult_IZR. lra.
  - exists (lo * 100)%Z. rewrite mult_IZR. lra.
  - exists k. exact Hk.
  - exists (lo * 100)%Z. rewrite mult_IZR. lra.
Qed.

(** X6.  Every numeric field of a reading is a whole number of
    hundredths: temperature and pressure are rounded to two decimals, and
    the clamps of humidity and wind speed keep that. *)
Theorem reading_two_decimals (hour : Z) (d : Draws) (s : StationState) :
  reachable s ->
  exists (s' : StationState) (reading : WeatherReading),
    generate hour d s = (s', inr reading) /\
    (exists k : Z, temperature reading = IZR k / 100) /\
    (exists k : Z, humidity reading = IZR k / 100) /\
    (exists k : Z, pressure reading = IZR k / 100) /\
    (exists k : Z, wind_speed reading = IZR k / 100).
Proof.
  intros Hr.
  destruct (generate_returns hour d s (reachable_idx s Hr)) as (wd & wc & Hg & _).
  eexists. eexists. split; [exact Hg |].
  cbn [temperature humidity pressure wind_speed].
  split; [apply round2_hundredth |].
  split; [apply (clamp_hundredth 20 100); apply round2_hundredth |].
  split; [apply round2_hundredth |].
  apply (clamp_hundredth 0 25); apply round2_hundredth.
Qed.

Lemma reading_two_decimals_witness :
  exists (s' : StationState) (reading : WeatherReading),
    generate 14 gusty_draws (__init__ seed_example) = (s', inr reading) /\
    (exists k : Z, temperature reading = IZR k / 100) /\
    (exists k : Z, humidity reading = IZR k / 100) /\
    (exists k : Z, pressure reading = IZR k / 100) /\
    (exists k : Z, wind_speed reading = IZR k / 100).
Proof.
  apply (reading_two_decimals 14 gusty_draws (__init__ seed_example)).
  apply reachable_init.
  unfold valid_init_draws, Py.unit_draw, seed_example; cbn.
  repeat split; try lra; lia.
Defined.

Lemma index_In {A : Type} (l : list A) (i : Z) (x : A) :
  Py.index l i = inr x -> In x l.
Proof.
  unfold Py.index.
  destruct ((0 <=? _)%Z && _)%bool; [| discriminate].
  destruct (nth_error l _) as [y |] eqn:Hnth; [| discriminate].
  intros [= <-]. exact (nth_error_In _ _ Hnth).
Qed.

Lemma weather_choices_labels (p h : R) (c : string) :
  In c (map fst (weather_choices p h)) -> In c (map fst WEATHER_CONDITIONS).
Proof.
  unfold weather_choices.
  destruct (Py.lt p 1000 && Py.gt h 70)%bool; [| destruct (Py.gt p 1020)];
    cbn; intuition.
Qed.

(** From a reachable state the reading of a call is plausible. *)
Lemma generate_plausible (hour : Z) (d : Draws) (s s' : StationState)
    (reading : WeatherReading) :
  reachable s -> generate hour d s = (s', inr reading) -> plausible reading.
Proof.
  intros Hr Hgen.
  destruct (generate_returns hour d s (reachable_idx s Hr))
    as (wd & wc & Hg & Hwd & _ & Hin).
  rewrite Hg in Hgen. injection Hgen as _ <-.
  unfold plausible. cbn [humidity wind_speed wind_direction weather_condition].
  split; [unfold out_humidity; apply clamp_range; lra |].
  split; [unfold out_wind_speed; apply clamp_range; lra |].
  split; [exact (index_In _ _ _ Hwd) | exact (weather_choices_labels _ _ _ Hin)].
Qed.

(** X7.  The labels of a reading are always known ones: the wind
    direction is one of the eight compass points and the condition one of
    the eight weather conditions. *)
Theorem reading_labels_known (hour : Z) (d : Draws) (s : StationState) :
  reachable s ->
  exists (s' : StationState) (reading : WeatherReading),
    generate hour d s = (s', inr reading) /\
    In (wind_direction reading)
       ["N"; "NE"; "E"; "SE"; "S"; "SW"; "W"; "NW"]%string /\
    In (weather_condition reading)
       [Clear; PartlyCloudy; Cloudy; Overcast; LightRain; Rain; Thunderstorm; Fog].
Proof.
  intros Hr.
  destruct (generate_returns hour d s (reachable_idx s Hr)) as (wd & wc & Hg & _).
  eexists. eexists. split; [exact Hg |].
  destruct (generate_plausible hour d s _ _ Hr Hg) as (_ & _ & Hwd & Hwc).
  split; [exact Hwd | exact Hwc].
Qed.

Lemma reading_labels_known_witness :
  exists (s' : StationState) (reading : WeatherReading),
    generate 14 gusty_draws (__init__ seed_example) = (s', inr reading) /\
    In (wind_direction reading)
       ["N"; "NE"; "E"; "SE"; "S"; "SW"; "W"; "NW"]%string /\
    In (weather_condition reading)
       [Clear; PartlyCloudy; Cloudy; Overcast; LightRain; Rain; Thunderstorm; Fog].
Proof.
  apply (reading_labels_known 14 gusty_draws (__init__ seed_example)).
  apply reachable_init.
  unfold valid_init_draws, Py.unit_draw, seed_example; cbn.
  repeat split; try lra; lia.
Defined.

Lemma next_direction_idx_shift (d : Draws) (s : StationState) :
  direction_draw d < 0.05 ->
  next_direction_idx d s
    = ((current_direction_idx s + (if direction_pick d then 1 else -1)) mod 8)%Z.
Proof.
  intros Hlt. unfold next_direction_idx.
  rewrite (lt_true _ _ Hlt). cbn [List.length WIND_DIRECTIONS].
  destruct (direction_pick d); reflexivity.
Qed.

(** X8.  A turn of the wind always lands on a different compass point,
    and a turn one way followed by a turn the other way brings the index
    back: from a reachable state, a call whose direction draw is below
    0.05 changes the index, and two such calls in a row with opposite
    picks restore it. *)
Theorem direction_turns (hour1 hour2 : Z) (d1 d2 : Draws) (s : StationState) :
  reachable s ->
  direction_draw d1 < 0.05 ->
  current_direction_idx (fst (generate hour1 d1 s)) <> current_direction_idx s /\
  (direction_draw d2 < 0.05 ->
   direction_pick d2 = negb (direction_pick d1) ->
   current_direction_idx
     (fst (generate hour2 d2 (fst (generate hour1 d1 s))))
     = current_direction_idx s).
Proof.
  intros Hr Hd1.
  pose proof (reachable_idx s Hr) as Hidx.
  rewrite !generate_run. cbn [fst next_state current_direction_idx].
  rewrite (next_direction_idx_shift d1 s Hd1).
  split.
  - destruct (direction_pick d1);
      pose proof (Z.mod_pos_bound (current_direction_idx s + 1) 8 ltac:(lia));
      pose proof (Z.mod_pos_bound (current_direction_idx s + -1) 8 ltac:(lia));
      pose proof (Z.div_mod (current_direction_idx s + 1) 8 ltac:(lia));
      pose proof (Z.div_mod (current_direction_idx s + -1) 8 ltac:(lia));
      lia.
  - intros Hd2 Hpick.
    rewrite (next_direction_idx_shift d2 _ Hd2).
    cbn [next_state current_direction_idx].
    rewrite (next_direction_idx_shift d1 s Hd1), Hpick.
    destruct (direction_pick d1); cbn [negb];
      rewrite Zplus_mod_idemp_l;
      [replace (current_direction_idx s + 1 + -1)%Z with (current_direction_idx s) by lia
      |replace (current_direction_idx s + -1 + 1)%Z with (current_direction_idx s) by lia];
      apply Z.mod_small; lia.
Qed.

Lemma direction_turns_witness :
  current_direction_idx (fst (generate 14 gusty_draws (__init__ seed_example)))
    <> current_direction_idx (__init__ seed_example) /\
  current_direction_idx
    (fst (generate 15 backing_draws
            (fst (generate 14 gusty_draws (__init__ seed_example)))))
    = current_direction_idx (__init__ seed_example).
Proof.
  assert (Hr : reachable (__init__ seed_example)).
  { apply reachable_init.
    unfold valid_init_draws, Py.unit_draw, seed_example; cbn.
    repeat split; try lra; lia. }
  assert (Hd1 : direction_draw gusty_draws < 0.05) by (cbn; lra).
  destruct (direction_turns 14 15 gusty_draws backing_draws
              (__init__ seed_example) Hr Hd1) as [Hturn Hback].
  split; [exact Hturn |].
  apply Hback; [cbn; lra | reflexivity].
Defined.

(** ** Further facts about the weighted selection *)

(** X9.  On an empty list the selection raises [IndexError], whatever is
    drawn: the loop does not run and the fallback indexes an empty list. *)
Theorem weighted_choice_empty (A : Type) (r u : R) :
  weighted_select (@nil (A * R)) r = inl Py.IndexError /\
  _weighted_choice (@nil (A * R)) u = inl Py.IndexError.
Proof. split; reflexivity. Qed.

Lemma cumulative_weight_last {A : Type} (choices : list (A * R)) :
  choices <> [] ->
  cumulative_weight choices (List.length choices - 1) = Py.sum (map snd choices).
Proof.
  intros Hne. unfold cumulative_weight.
  destruct choices as [| x l]; [contradiction |].
  cbn [List.length]. rewrite Nat.sub_1_r. cbn [Nat.pred].
  change (S (List.length l)) with (List.length (x :: l)).
  rewrite firstn_all. reflexivity.
Qed.

Lemma weighted_walk_some {A : Type} (choices : list (A * R)) (r : R) :
  choices <> [] ->
  r <= Py.sum (map snd choices) ->
  exists c, weighted_walk choices r 0 = Some c /\ weighted_select choices r = inr c.
Proof.
  intros Hne Hr.
  pose proof (weighted_walk_spec choices r 0) as Hwalk.
  unfold weighted_select.
  destruct (weighted_walk choices r 0) as [c |].
  - exists c. split; reflexivity.
  - exfalso.
    assert (Hlen : (List.length choices - 1 < List.length choices)%nat)
      by (destruct choices; [contradiction | cbn; lia]).
    apply (Hwalk _ Hlen). rewrite (cumulative_weight_last choices Hne). lra.
Qed.

(** X10.  For a draw that does not exceed the total weight the loop
    itself returns: the fallback to the last entry is reached only when
    [r] is above the sum of the weights. *)
Theorem weighted_walk_returns {A : Type} (choices : list (A * R)) (r : R) :
  choices <> [] ->
  r <= Py.sum (map snd choices) ->
  exists c, weighted_walk choices r 0 = Some c /\ weighted_select choices r = inr c.
Proof. exact (weighted_walk_some choices r). Qed.

Lemma weighted_walk_returns_witness :
  exists c, weighted_walk WEATHER_CONDITIONS 0.97 0 = Some c /\
            weighted_select WEATHER_CONDITIONS 0.97 = inr c.
Proof.
  apply (weighted_walk_returns WEATHER_CONDITIONS 0.97).
  - discriminate.
  - unfold Py.sum, WEATHER_CONDITIONS. cbn. lra.
Defined.

Lemma sum_cons (x : R) (xs : list R) : Py.sum (x :: xs) = x + Py.sum xs.
Proof. unfold Py.sum at 1. cbn [fold_left]. rewrite sum_acc. lra. Qed.

Lemma sum_weights_nonneg {A : Type} (choices : list (A * R)) :
  Forall (fun entry => 0 <= snd entry) choices -> 0 <= Py.sum (map snd choices).
Proof.
  induction 1 as [| [c w] rest Hw Hrest IH]; [unfold Py.sum; cbn; lra |].
  cbn [map snd]. rewrite sum_cons. cbn in Hw. lra.
Qed.

Lemma cumulative_weight_le_total {A : Type} (choices : list (A * R)) :
  Forall (fun entry => 0 <= snd entry) choices ->
  forall j, (j < List.length choices)%nat ->
            cumulative_weight choices j <= Py.sum (map snd choices).
Proof.
  induction 1 as [| [c w] rest Hw Hrest IH]; intros j Hj; [cbn in Hj; lia |].
  pose proof (sum_weights_nonneg rest Hrest) as Hnonneg.
  cbn [map snd]. rewrite sum_cons. destruct j as [| j].
  - rewrite cumulative_weight_0. lra.
  - rewrite cumulative_weight_S. cbn [List.length] in Hj.
    assert (Hj' : (j < List.length rest)%nat) by lia.
    specialize (IH j Hj'). lra.
Qed.

(** X11.  With weights that are not negative, a draw above the total
    weight is answered by the last entry of the list. *)
Theorem weighted_select_fallback {A : Type} (x : A * R) (l : list (A * R)) (r : R) :
  Forall (fun entry => 0 <= snd entry) (x :: l) ->
  Py.sum (map snd (x :: l)) < r ->
  weighted_select (x :: l) r = inr (fst (last l x)).
Proof.
  intros Hw Hr.
  pose proof (weighted_walk_spec (x :: l) r 0) as Hwalk.
  unfold weighted_select.
  destruct (weighted_walk (x :: l) r 0) as [c |].
  - exfalso. destruct Hwalk as (i & w & Hnth & Hreach & _).
    assert (Hi : (i < List.length (x :: l))%nat)
      by (apply nth_error_Some; rewrite Hnth; discriminate).
    pose proof (cumulative_weight_le_total (x :: l) Hw i Hi). lra.
  - rewrite index_last. reflexivity.
Qed.

Lemma weighted_select_fallback_witness :
  weighted_select ((Clear, 0.5) :: [(PartlyCloudy, 0.35); (Cloudy, 0.15)]) 1.5
    = inr (fst (last [(PartlyCloudy, 0.35); (Cloudy, 0.15)] (Clear, 0.5))).
Proof.
  apply (weighted_select_fallback (Clear, 0.5) [(PartlyCloudy, 0.35); (Cloudy, 0.15)] 1.5).
  - repeat constructor; cbn; lra.
  - unfold Py.sum. cbn. lra.
Defined.

Lemma weather_choices_total (p h : R) : Py.sum (map snd (weather_choices p h)) = 1.
Proof.
  unfold weather_choices.
  destruct (Py.lt p 1000 && Py.gt h 70)%bool; [| destruct (Py.gt p 1020)];
    unfold Py.sum; cbn; lra.
Qed.

(** X12.  In [generate] the weights of the list in force always add up
    to 1, so the number compared with the running total is the uniform
    draw itself, and for a draw between 0 and 1 the condition is found by
    the loop, never by the fallback. *)
Theorem condition_draw_is_threshold (p h u : R) :
  0 <= u <= 1 ->
  Py.uniform 0 (Py.sum (map snd (weather_choices p h))) u = u /\
  exists c, weighted_walk (weather_choices p h) u 0 = Some c /\
            _weighted_choice (weather_choices p h) u = inr c.
Proof.
  intros Hu.
  assert (Hr : Py.uniform 0 (Py.sum (map snd (weather_choices p h))) u = u)
    by (rewrite weather_choices_total; unfold Py.uniform; lra).
  split; [exact Hr |].
  unfold _weighted_choice. rewrite Hr.
  apply weighted_walk_some; [apply weather_choices_nonempty |].
  rewrite weather_choices_total. lra.
Qed.

Lemma condition_draw_is_threshold_witness :
  Py.uniform 0 (Py.sum (map snd (weather_choices 1015 55))) 0.9 = 0.9 /\
  exists c, weighted_walk (weather_choices 1015 55) 0.9 0 = Some c /\
            _weighted_choice (weather_choices 1015 55) 0.9 = inr c.
Proof.
  apply (condition_draw_is_threshold 1015 55 0.9). lra.
Defined.

(** ** Further facts about the connection phase *)

Section MoreSinkFacts.

Context {Connection : Type}.
Variable connect : nat -> ConnectOutcome Connection.

Lemma is_OperationalError_true (e : Py.Exn) :
  is_OperationalError e = true -> e = Py.OperationalError.
Proof. destruct e; cbn; intros H; [discriminate | reflexivity | discriminate ..]. Qed.

(** The first of the first [m] calls at which the driver does anything
    else than raise [OperationalError], if there is one. *)
Lemma first_settled_call (m : nat) :
  exists n : nat,
    (n <= m)%nat /\
    (forall k, (k < n)%nat -> connect k = Fails Py.OperationalError) /\
    (n = m \/
     (n < m)%nat /\
     ((exists conn, connect n = Connects conn) \/
      (exists e, connect n = Fails e /\ is_OperationalError e = false))).
Proof.
  induction m as [| m (n & Hle & Hfail & Hend)].
  - exists 0%nat. split; [lia |]. split; [intros k Hk; lia | left; reflexivity].
  - destruct Hend as [-> | [Hlt Hsettled]].
    + destruct (connect m) as [conn | e] eqn:Hm.
      * exists m. split; [lia |]. split; [exact Hfail |].
        right. split; [lia |]. left. exists conn. exact Hm.
      * destruct (is_OperationalError e) eqn:He.
        -- apply is_OperationalError_true in He. subst e.
           exists (S m). split; [lia |]. split; [| left; reflexivity].
           intros k Hk. destruct (Nat.eq_dec k m) as [-> | Hne];
             [exact Hm | apply Hfail; lia].
        -- exists m. split; [lia |]. split; [exact Hfail |].
           right. split; [lia |]. right. exists e. split; [exact Hm | exact He].
    + exists n. split; [lia |]. split; [exact Hfail |].
      right. split; [lia | exact Hsettled].
Qed.

(** X13.  Whatever the driver does, [connect_to_db] ends in one of three
    ways after some number [n] of unavailable attempts, each followed by a
    2-second sleep: attempt [n + 1] connected and its connection is
    returned; attempt [n + 1] raised another exception, which is passed
    on; or [n] is 30 and the final exception is raised.  In particular a
    connection is returned only if the driver gave it at the last call. *)
Theorem connect_to_db_outcomes :
  exists n : nat,
    (n <= 30)%nat /\
    (forall k, (k < n)%nat -> connect k = Fails Py.OperationalError) /\
    slept (fst (connect_to_db connect fresh_world)) = repeat 2%Z n /\
    ((n < 30)%nat /\
     (exists conn,
         connect n = Connects conn /\
         snd (connect_to_db connect fresh_world) = inr conn /\
         connect_calls (fst (connect_to_db connect fresh_world)) = (n + 1)%nat)
     \/
     (n < 30)%nat /\
     (exists e,
         connect n = Fails e /\ is_OperationalError e = false /\
         snd (connect_to_db connect fresh_world) = inl e /\
         connect_calls (fst (connect_to_db connect fresh_world)) = (n + 1)%nat)
     \/
     n = 30%nat /\
     snd (connect_to_db connect fresh_world) = inl (Py.Exception exhausted_message) /\
     connect_calls (fst (connect_to_db connect fresh_world)) = 30%nat).
Proof.
  destruct (first_settled_call max_retries) as (n & Hle & Hfail & Hend).
  exists n. split; [exact Hle |]. split; [exact Hfail |].
  rewrite (connect_to_db_after connect n Hle Hfail).
  destruct Hend as [-> | [Hlt [[conn Hconn] | [e [He Hother]]]]].
  - rewrite Nat.sub_diag. cbn [seq connect_loop].
    split; [reflexivity |]. right. right.
    split; [reflexivity |]. split; reflexivity.
  - destruct (max_retries - n)%nat as [| m] eqn:Hm; [lia |].
    cbn [seq connect_loop do_connect after_failures connect_calls fresh_world].
    cbn [Nat.add]. rewrite Hconn. cbn.
    split; [reflexivity |]. left. split; [exact Hlt |].
    exists conn. split; [reflexivity |]. split; [reflexivity | lia].
  - destruct (max_retries - n)%nat as [| m] eqn:Hm; [lia |].
    cbn [seq connect_loop do_connect after_failures connect_calls fresh_world].
    cbn [Nat.add]. rewrite He, Hother. cbn.
    split; [reflexivity |]. right. left. split; [exact Hlt |].
    exists e. split; [reflexivity |]. split; [exact Hother |].
    split; [reflexivity | lia].
Qed.

(** X14.  The printed lines tell the story of the attempts: one line per
    unavailable attempt, numbered from 1 with the total 30 and the delay
    2, then the line of the successful attempt with its number.  An
    attempt that raises another exception prints nothing. *)
Theorem connect_to_db_report (N : nat) :
  (N < 30)%nat ->
  (forall k, (k < N)%nat -> connect k = Fails Py.OperationalError) ->
  (forall conn, connect N = Connects conn ->
     printed (fst (connect_to_db connect fresh_world))
       = map (fun i => MsgUnavailable (i + 1) 30 2) (seq 0 N)
         ++ [MsgConnected (N + 1)]) /\
  (forall e, connect N = Fails e -> is_OperationalError e = false ->
     printed (fst (connect_to_db connect fresh_world))
       = map (fun i => MsgUnavailable (i + 1) 30 2) (seq 0 N)).
Proof.
  intros HN Hfail.
  rewrite (connect_to_db_after connect N) by (unfold max_retries; lia || exact Hfail).
  destruct (max_retries - N)%nat as [| m] eqn:Hm; [unfold max_retries in Hm; lia |].
  cbn [seq connect_loop do_connect after_failures connect_calls fresh_world].
  cbn [Nat.add]. split.
  - intros conn Hconn. rewrite Hconn. reflexivity.
  - intros e He Hother. rewrite He, Hother. reflexivity.
Qed.

End MoreSinkFacts.

Lemma connect_to_db_report_witness :
  printed (fst (connect_to_db connect_after_three fresh_world))
    = map (fun i => MsgUnavailable (i + 1) 30 2) (seq 0 3) ++ [MsgConnected (3 + 1)] /\
  printed (fst (connect_to_db connect_rejected fresh_world))
    = map (fun i => MsgUnavailable (i + 1) 30 2) (seq 0 2).
Proof.
  split.
  - apply (proj1 (connect_to_db_report connect_after_three 3%nat
                    ltac:(lia) connect_after_three_fails) 7%nat).
    reflexivity.
  - apply (proj2 (connect_to_db_report connect_rejected 2%nat
                    ltac:(lia) connect_rejected_fails)
                 (Py.OtherError "ProgrammingError")); reflexivity.
Defined.

(** ** Facts about [main] *)

Lemma div60_hit (c : Z) :
  (0 <= c)%Z -> ((c + 1) mod 60 = 0)%Z ->
  ((c + 1) / 60 = c / 60 + 1)%Z /\ (60 * (c / 60 + 1) = c + 1)%Z.
Proof. intros Hc Hm. Z.div_mod_to_equations. lia. Qed.

Lemma div60_miss (c : Z) :
  (0 <= c)%Z -> ((c + 1) mod 60 <> 0)%Z -> ((c + 1) / 60 = c / 60)%Z.
Proof. intros Hc Hm. Z.div_mod_to_equations. lia. Qed.

Section MainFacts.

Context {Connection Timestamp : Type}.
Variable GENERATION_INTERVAL : Z.

Lemma main_loop_cons (t : Tick Timestamp) (rest : list (Tick Timestamp)) (st : LoopState Connection Timestamp) :
  main_loop GENERATION_INTERVAL (t :: rest) st
    = match tick_step GENERATION_INTERVAL t st with
      | (st', Some e) => (st', LoopRaised e)
      | (st', None) => main_loop GENERATION_INTERVAL rest st'
      end.
Proof.
  cbn [main_loop]. unfold tick_step.
  destruct (generate _ _ _) as [g [e | data]]; [reflexivity |].
  destruct (insert_weather_data _ _ _) as [log [e | [record_id timestamp]]];
    [reflexivity |].
  destruct (tick_interrupt t); reflexivity.
Qed.

(** What every iteration keeps, the loop keeps. *)
Lemma main_loop_preserves (P : LoopState Connection Timestamp -> Prop) :
  (forall t st, P st -> P (fst (tick_step GENERATION_INTERVAL t st))) ->
  forall ticks st, P st -> P (fst (main_loop GENERATION_INTERVAL ticks st)).
Proof.
  intros Hstep ticks.
  induction ticks as [| t rest IH]; intros st Hst; [exact Hst |].
  rewrite main_loop_cons. specialize (Hstep t st Hst).
  destruct (tick_step GENERATION_INTERVAL t st) as [st' [e |]]; cbn [fst] in *.
  - exact Hstep.
  - apply IH. exact Hstep.
Qed.

Ltac split_log :=
  unfold executed, committed, record_lines, stats_lines, sleeps, closes,
    stopped_lines in *;
  rewrite ?flat_map_app, ?filter_app, ?length_app;
  cbn [flat_map filter List.length app];
  rewrite ?app_nil_r, ?Nat.add_0_r.

Lemma tick_step_books (t : Tick Timestamp) (st : LoopState Connection Timestamp) :
  books_balanced GENERATION_INTERVAL st ->
  books_balanced GENERATION_INTERVAL (fst (tick_step GENERATION_INTERVAL t st)).
Proof.
  intros (Hpos & Hcount & Hlines & Hsleeps & Hstats & Hcloses & Hstopped).
  unfold tick_step.
  destruct (generate _ _ _) as [g [e | data]];
    [unfold books_balanced; cbn; repeat split; assumption |].
  unfold insert_weather_data.
  destruct (tick_insert t) as [record_id timestamp | e | e];
    cbn [fst loop_generator loop_records_count loop_events].
  - set (c := loop_records_count st) in *.
    destruct (Z.eqb_spec ((c + 1) mod 60) 0) as [Hhit | Hmiss];
      unfold books_balanced;
      cbn [fst loop_generator loop_records_count loop_events]; split_log.
    + destruct (div60_hit c Hpos Hhit) as [Hdiv Hmul].
      rewrite Hdiv, Z2Nat.inj_add by (try apply Z.div_pos; lia).
      change (Z.to_nat 1) with 1%nat. rewrite seq_app, map_app. cbn [seq map Nat.add].
      rewrite Z2Nat.id by (apply Z.div_pos; lia).
      rewrite Hmul, Hstats, Hsleeps, Hlines, Hcloses, Hstopped, repeat_app.
      repeat split; try reflexivity; lia.
    + rewrite (div60_miss c Hpos Hmiss).
      rewrite Hstats, Hsleeps, Hlines, Hcloses, Hstopped, repeat_app.
      repeat split; try reflexivity; lia.
  - unfold books_balanced; cbn [fst loop_generator loop_records_count loop_events].
    split_log. repeat split; assumption.
  - unfold books_balanced; cbn [fst loop_generator loop_records_count loop_events].
    split_log. repeat split; assumption.
Qed.

Lemma main_loop_books (ticks : list (Tick Timestamp)) (g : StationState) :
  books_balanced GENERATION_INTERVAL
    (fst (main_loop GENERATION_INTERVAL ticks
            (mkLoopState (Connection := Connection) g 0 [EvPrintStart]))).
Proof.
  apply (main_loop_preserves (books_balanced GENERATION_INTERVAL) tick_step_books).
  unfold books_balanced; cbn. repeat split; try reflexivity; lia.
Qed.

Lemma tick_step_reachable (t : Tick Timestamp) (st : LoopState Connection Timestamp) :
  reachable (loop_generator st) ->
  reachable (loop_generator (fst (tick_step GENERATION_INTERVAL t st))).
Proof.
  intros Hr.
  pose proof (reachable_generate (tick_hour t) (tick_draws t) _ Hr) as Hnext.
  unfold tick_step.
  destruct (generate _ _ _) as [g [e | data]]; cbn [fst] in Hnext; [exact Hnext |].
  unfold insert_weather_data.
  destruct (tick_insert t); exact Hnext.
Qed.

(** Every tuple given to the database so far is that of a plausible
    reading. *)
Lemma tick_step_plausible (t : Tick Timestamp) (st : LoopState Connection Timestamp) :
  reachable (loop_generator st) /\
  Forall (fun params => exists reading,
              params = insert_params reading /\ plausible reading)
         (executed (loop_events st)) ->
  reachable (loop_generator (fst (tick_step GENERATION_INTERVAL t st))) /\
  Forall (fun params => exists reading,
              params = insert_params reading /\ plausible reading)
         (executed (loop_events (fst (tick_step GENERATION_INTERVAL t st)))).
Proof.
  intros [Hr Hall]. split; [apply tick_step_reachable; exact Hr |].
  unfold tick_step.
  destruct (generate _ _ _) as [g [e | data]] eqn:Hgen; [exact Hall |].
  pose proof (generate_plausible _ _ _ _ _ Hr Hgen) as Hdata.
  assert (Hnew : Forall (fun params => exists reading,
                            params = insert_params reading /\ plausible reading)
                        [insert_params data])
    by (constructor; [exists data; split; [reflexivity | exact Hdata] | constructor]).
  unfold insert_weather_data.
  destruct (tick_insert t) as [record_id timestamp | e | e];
    cbn [fst loop_events].
  - destruct ((loop_records_count st + 1) mod 60 =? 0)%Z; split_log;
      apply Forall_app; split; assumption.
  - split_log. apply Forall_app; split; assumption.
  - split_log. apply Forall_app; split; assumption.
Qed.

(** An uneventful iteration from a reachable generator state goes through
    and counts one record. *)
Lemma tick_step_uneventful (t : Tick Timestamp) (st : LoopState Connection Timestamp) :
  reachable (loop_generator st) ->
  uneventful t ->
  exists st',
    tick_step GENERATION_INTERVAL t st = (st', None) /\
    reachable (loop_generator st') /\
    loop_records_count st' = (loop_records_count st + 1)%Z.
Proof.
  intros Hr [(record_id & timestamp & Hins) Hint].
  pose proof (tick_step_reachable t st Hr) as Hnext.
  destruct (generate_returns (tick_hour t) (tick_draws t) _ (reachable_idx _ Hr))
    as (wd & wc & Hg & _).
  unfold tick_step in *. rewrite Hg in *.
  unfold insert_weather_data in *. rewrite Hins, Hint in *.
  eexists. split; [reflexivity |]. split; [exact Hnext | reflexivity].
Qed.

Lemma main_loop_uneventful (before rest : list (Tick Timestamp)) :
  forall st : LoopState Connection Timestamp,
    reachable (loop_generator st) ->
    Forall uneventful before ->
    exists st',
      main_loop GENERATION_INTERVAL (before ++ rest) st
        = main_loop GENERATION_INTERVAL rest st' /\
      reachable (loop_generator st') /\
      loop_records_count st'
        = (loop_records_count st + Z.of_nat (List.length before))%Z.
Proof.
  induction before as [| t before IH]; intros st Hr Hall.
  - exists st. split; [reflexivity |]. split; [exact Hr | cbn; lia].
  - inversion Hall as [| t0 l0 Ht Hbefore]; subst.
    destruct (tick_step_uneventful t st Hr Ht) as (st1 & Hstep & Hr1 & Hc1).
    destruct (IH st1 Hr1 Hbefore) as (st' & Hloop & Hr' & Hc').
    exists st'. split; [| split; [exact Hr' |]].
    + cbn [app]. rewrite main_loop_cons, Hstep. exact Hloop.
    + rewrite Hc', Hc1. cbn [List.length]. lia.
Qed.

Variable connect : nat -> ConnectOutcome Connection.
Variable seed : InitDraws.

(** X15.  [main] closes the connection exactly once on every way out of
    the loop, as its last action but one, and never while the loop runs.
    If no connection is obtained, the exception of [connect_to_db] leaves
    [main] before anything else is done. *)
Theorem main_closes_connection (ticks : list (Tick Timestamp)) :
  match snd (connect_to_db connect fresh_world) with
  | inl e =>
      main_outcome (main GENERATION_INTERVAL connect seed ticks) = Crashed e /\
      main_log (main GENERATION_INTERVAL connect seed ticks) = []
  | inr conn =>
      (main_outcome (main GENERATION_INTERVAL connect seed ticks) = Running /\
       closes (main_log (main GENERATION_INTERVAL connect seed ticks)) = [])
      \/
      (main_outcome (main GENERATION_INTERVAL connect seed ticks) <> Running /\
       closes (main_log (main GENERATION_INTERVAL connect seed ticks)) = [conn] /\
       exists before,
         main_log (main GENERATION_INTERVAL connect seed ticks)
           = before ++ [EvClose conn; EvPrintClosed])
  end.
Proof.
  unfold main.
  destruct (connect_to_db connect fresh_world) as [w [e | conn]]; cbn [snd].
  - split; reflexivity.
  - pose proof (main_loop_books ticks (__init__ seed)) as Hbooks.
    destruct (main_loop _ _ _) as [st [e |]]; cbn [fst] in Hbooks.
    + destruct Hbooks as (_ & _ & _ & _ & _ & Hcloses & _).
      right. destruct (is_KeyboardInterrupt e); cbn [main_outcome main_log].
      * split; [discriminate |]. split.
        -- split_log. rewrite Hcloses. reflexivity.
        -- exists (loop_events st ++ [EvPrintStopped (loop_records_count st)]).
           rewrite <- app_assoc. reflexivity.
      * split; [discriminate |]. split.
        -- split_log. rewrite Hcloses. reflexivity.
        -- exists (loop_events st). reflexivity.
    + left. cbn [main_outcome main_log]. split; [reflexivity |].
      apply Hbooks.
Qed.

(** X16.  [records_count] is the number of committed inserts: at any
    moment the log of [main] holds as many commits, record lines and
    sleeps of [GENERATION_INTERVAL] seconds as the counter says, and the
    summary printed on [KeyboardInterrupt] shows that number. *)
Theorem main_counts_commits (ticks : list (Tick Timestamp)) :
  Z.of_nat (committed (main_log (main GENERATION_INTERVAL connect seed ticks)))
    = main_records (main GENERATION_INTERVAL connect seed ticks) /\
  List.length (record_lines (main_log (main GENERATION_INTERVAL connect seed ticks)))
    = committed (main_log (main GENERATION_INTERVAL connect seed ticks)) /\
  sleeps (main_log (main GENERATION_INTERVAL connect seed ticks))
    = repeat GENERATION_INTERVAL
        (committed (main_log (main GENERATION_INTERVAL connect seed ticks))) /\
  stopped_lines (main_log (main GENERATION_INTERVAL connect seed ticks))
    = match main_outcome (main GENERATION_INTERVAL connect seed ticks) with
      | Exited => [main_records (main GENERATION_INTERVAL connect seed ticks)]
      | _ => []
      end.
Proof.
  unfold main.
  destruct (connect_to_db connect fresh_world) as [w [e | conn]].
  - cbn. repeat split.
  - pose proof (main_loop_books ticks (__init__ seed)) as Hbooks.
    destruct (main_loop _ _ _) as [st [e |]]; cbn [fst] in Hbooks;
      destruct Hbooks as (_ & Hcount & Hlines & Hsleeps & _ & _ & Hstopped).
    + destruct (is_KeyboardInterrupt e);
        cbn [main_outcome main_log main_records]; split_log;
        rewrite Hstopped; repeat split; assumption.
    + cbn [main_outcome main_log main_records]. repeat split; assumption.
Qed.

(** X17.  A statistics line is printed exactly when the counter reaches a
    multiple of 60: the lines in the log are those for 60, 120, ... up to
    the last multiple of 60 not above [records_count]. *)
Theorem main_stats_every_60 (ticks : list (Tick Timestamp)) :
  stats_lines (main_log (main GENERATION_INTERVAL connect seed ticks))
    = map (fun i => (60 * (Z.of_nat i + 1))%Z)
          (seq 0 (Z.to_nat
                    (main_records (main GENERATION_INTERVAL connect seed ticks) / 60))).
Proof.
  unfold main.
  destruct (connect_to_db connect fresh_world) as [w [e | conn]]; [reflexivity |].
  pose proof (main_loop_books ticks (__init__ seed)) as Hbooks.
  destruct (main_loop _ _ _) as [st [e |]]; cbn [fst] in Hbooks;
    destruct Hbooks as (_ & _ & _ & _ & Hstats & _ & _).
  - destruct (is_KeyboardInterrupt e);
      cbn [main_outcome main_log main_records]; split_log; exact Hstats.
  - exact Hstats.
Qed.

(** X18.  Everything [main] sends to the database is a plausible reading:
    humidity in [20, 100], wind speed in [0, 25], a compass point and one
    of the eight conditions, in the column order of the statement. *)
Theorem main_inserts_plausible (ticks : list (Tick Timestamp)) :
  valid_init_draws seed ->
  Forall (fun params => exists reading,
              params = insert_params reading /\ plausible reading)
         (executed (main_log (main GENERATION_INTERVAL connect seed ticks))).
Proof.
  intros Hseed. unfold main.
  destruct (connect_to_db connect fresh_world) as [w [e | conn]]; [constructor |].
  assert (Hloop :
    reachable (loop_generator
      (fst (main_loop GENERATION_INTERVAL ticks
              (mkLoopState (Connection := Connection) (__init__ seed) 0 [EvPrintStart])))) /\
    Forall (fun params => exists reading,
                params = insert_params reading /\ plausible reading)
           (executed (loop_events
      (fst (main_loop GENERATION_INTERVAL ticks
              (mkLoopState (Connection := Connection) (__init__ seed) 0 [EvPrintStart])))))).
  { apply (main_loop_preserves
             (fun st => reachable (loop_generator st) /\
                        Forall (fun params => exists reading,
                                    params = insert_params reading /\ plausible reading)
                               (executed (loop_events st)))
             tick_step_plausible).
    split; [apply reachable_init; exact Hseed | constructor]. }
  destruct Hloop as [_ Hall].
  destruct (main_loop _ _ _) as [st [e |]]; cbn [fst] in Hall.
  - destruct (is_KeyboardInterrupt e); cbn [main_log]; split_log; exact Hall.
  - exact Hall.
Qed.


(** X20.  An interrupt during the sleep of an iteration ends [main]
    cleanly: the record of that iteration is already committed and
    counted, the summary shows the count, the connection is closed, and
    the iterations that would have followed do not happen. *)
Theorem main_interrupted
    (before after : list (Tick Timestamp)) (t : Tick Timestamp)
    (conn : Connection) (record_id : Z) (timestamp : Timestamp) :
  valid_init_draws seed ->
  snd (connect_to_db connect fresh_world) = inr conn ->
  Forall uneventful before ->
  tick_insert t = Stored record_id timestamp ->
  tick_interrupt t = true ->
  main_outcome (main GENERATION_INTERVAL connect seed (before ++ t :: after)) = Exited /\
  main_records (main GENERATION_INTERVAL connect seed (before ++ t :: after))
    = (Z.of_nat (List.length before) + 1)%Z /\
  exists log,
    main_log (main GENERATION_INTERVAL connect seed (before ++ t :: after))
      = log ++ [EvSleep GENERATION_INTERVAL;
                EvPrintStopped (Z.of_nat (List.length before) + 1);
                EvClose conn; EvPrintClosed].
Proof.
  intros Hseed Hconn Hbefore Hins Hint. unfold main.
  destruct (connect_to_db connect fresh_world) as [w [e | conn']];
    cbn [snd] in Hconn; [discriminate |].
  injection Hconn as ->.
  destruct (main_loop_uneventful before (t :: after)
              (mkLoopState (Connection := Connection) (__init__ seed) 0 [EvPrintStart])
              (reachable_init seed Hseed) Hbefore) as (st' & Hloop & Hr & Hcount).
  rewrite Hloop, main_loop_cons.
  destruct (generate_returns (tick_hour t) (tick_draws t) _ (reachable_idx _ Hr))
    as (wd & wc & Hg & _).
  unfold tick_step. rewrite Hg. unfold insert_weather_data. rewrite Hins, Hint.
  cbn [is_KeyboardInterrupt KeyboardInterrupt String.eqb Ascii.eqb Bool.eqb].
  cbn [main_outcome main_records main_log loop_records_count loop_events].
  rewrite Hcount. cbn [loop_records_count].
  split; [reflexivity |]. split; [lia |].
  replace (0 + Z.of_nat (List.length before) + 1)%Z
    with (Z.of_nat (List.length before) + 1)%Z by lia.
  match goal with
  | |- exists log, (?l ++ [EvSleep _]) ++ _ = _ => exists l
  end.
  rewrite <- app_assoc. reflexivity.
Qed.

(** X21.  A failed insert is not retried: when the database rejects the
    statement or the commit of an iteration with an exception other than
    [KeyboardInterrupt], [main] closes the connection and ends with that
    exception; the record is not counted and nothing more is executed. *)
Theorem main_persist_failure
    (before after : list (Tick Timestamp)) (t : Tick Timestamp)
    (conn : Connection) (e : Py.Exn) :
  valid_init_draws seed ->
  snd (connect_to_db connect fresh_world) = inr conn ->
  Forall uneventful before ->
  tick_insert t = ExecuteFails e \/ tick_insert t = CommitFails e ->
  is_KeyboardInterrupt e = false ->
  main_outcome (main GENERATION_INTERVAL connect seed (before ++ t :: after)) = Crashed e /\
  main_records (main GENERATION_INTERVAL connect seed (before ++ t :: after))
    = Z.of_nat (List.length before) /\
  exists log params,
    main_log (main GENERATION_INTERVAL connect seed (before ++ t :: after))
      = log ++ [EvExecute params; EvClose conn; EvPrintClosed].
Proof.
  intros Hseed Hconn Hbefore Hins Hother. unfold main.
  destruct (connect_to_db connect fresh_world) as [w [e0 | conn']];
    cbn [snd] in Hconn; [discriminate |].
  injection Hconn as ->.
  destruct (main_loop_uneventful before (t :: after)
              (mkLoopState (Connection := Connection) (__init__ seed) 0 [EvPrintStart])
              (reachable_init seed Hseed) Hbefore) as (st' & Hloop & Hr & Hcount).
  rewrite Hloop, main_loop_cons.
  destruct (generate_returns (tick_hour t) (tick_draws t) _ (reachable_idx _ Hr))
    as (wd & wc & Hg & _).
  unfold tick_step. rewrite Hg. unfold insert_weather_data.
  destruct Hins as [Hins | Hins]; rewrite Hins, Hother;
    cbn [main_outcome main_records main_log loop_records_count loop_events];
    (split; [reflexivity |]); (split; [rewrite Hcount; cbn; lia |]);
    exists (loop_events st'), (insert_params
      {| temperature := out_temperature (tick_hour t) (tick_draws t) (loop_generator st');
         humidity := out_humidity (tick_hour t) (tick_draws t) (loop_generator st');
         pressure := out_pressure (tick_draws t) (loop_generator st');
         wind_speed := out_wind_speed (tick_draws t) (loop_generator st');
         wind_direction := wd;
         weather_condition := wc |});
    rewrite <- app_assoc; reflexivity.
Qed.

End MainFacts.

Lemma stored_tick_uneventful (record_id : Z) : uneventful (stored_tick record_id).
Proof. split; [exists record_id, 0%nat; reflexivity | reflexivity]. Qed.

Lemma connect_at_once_connects :
  snd (connect_to_db connect_at_once fresh_world) = inr 7%nat.
Proof. reflexivity. Qed.

Lemma main_inserts_plausible_witness :
  Forall (fun params => exists reading,
              params = insert_params reading /\ plausible reading)
         (executed (main_log (main 1 connect_at_once seed_example
                                   [stored_tick 1; rejected_tick]))).
Proof.
  apply (main_inserts_plausible 1 connect_at_once seed_example
           [stored_tick 1; rejected_tick]).
  unfold valid_init_draws, Py.unit_draw, seed_example; cbn.
  repeat split; try lra; lia.
Defined.


Lemma main_interrupted_witness :
  main_outcome (main 1 connect_at_once seed_example
                     ([stored_tick 1] ++ interrupted_tick 2 :: [stored_tick 3]))
    = Exited /\
  main_records (main 1 connect_at_once seed_example
                     ([stored_tick 1] ++ interrupted_tick 2 :: [stored_tick 3]))
    = (Z.of_nat (List.length [stored_tick 1]) + 1)%Z /\
  exists log,
    main_log (main 1 connect_at_once seed_example
                   ([stored_tick 1] ++ interrupted_tick 2 :: [stored_tick 3]))
      = log ++ [EvSleep 1;
                EvPrintStopped (Z.of_nat (List.length [stored_tick 1]) + 1);
                EvClose 7%nat; EvPrintClosed].
Proof.
  apply (main_interrupted 1 connect_at_once seed_example
           [stored_tick 1] [stored_tick 3] (interrupted_tick 2) 7%nat 2%Z 0%nat).
  - unfold valid_init_draws, Py.unit_draw, seed_example; cbn.
    repeat split; try lra; lia.
  - exact connect_at_once_connects.
  - repeat constructor; apply stored_tick_uneventful.
  - reflexivity.
  - reflexivity.
Defined.

Lemma main_persist_failure_witness :
  main_outcome (main 1 connect_at_once seed_example
                     ([stored_tick 1] ++ rejected_tick :: [stored_tick 2]))
    = Crashed (Py.OtherError "IntegrityError") /\
  main_records (main 1 connect_at_once seed_example
                     ([stored_tick 1] ++ rejected_tick :: [stored_tick 2]))
    = Z.of_nat (List.length [stored_tick 1]) /\
  exists log params,
    main_log (main 1 connect_at_once seed_example
                   ([stored_tick 1] ++ rejected_tick :: [stored_tick 2]))
      = log ++ [EvExecute params; EvClose 7%nat; EvPrintClosed].
Proof.
  apply (main_persist_failure 1 connect_at_once seed_example
           [stored_tick 1] [stored_tick 2] rejected_tick 7%nat
           (Py.OtherError "IntegrityError")).
  - unfold valid_init_draws, Py.unit_draw, seed_example; cbn.
    repeat split; try lra; lia.
  - exact connect_at_once_connects.
  - repeat constructor; apply stored_tick_uneventful.
  - left. reflexivity.
  - reflexivity.
Defined.
